(** * gemini-bridge-mcp: command construction, sanitization and result shaping

    A shallow embedding of [src/index.ts]: the sanitizer [sanitizeInput], the
    command builder [buildCommand] and the [CallToolRequestSchema] handler,
    and of the setup verification of [src/verify-setup.ts], with the
    properties the specification states about them.

    JavaScript strings are sequences of 16-bit code units; they are modelled
    as lists of code units ([N]).  The child process run by [execSync] and
    the current directory given by [process.cwd()] are not part of the
    program: they are parameters of the handler, and the handler returns the
    list of processes it started next to its outcome. *)

From Stdlib Require Import List NArith Bool Arith Lia String Ascii.
Import ListNotations.

Local Open Scope N_scope.
Local Open Scope list_scope.

(** ** JavaScript strings *)

Module JS.

Definition codeUnit := N.
Definition jsstring := list codeUnit.

(** A source literal made of ASCII characters, as its code units. *)
Definition lit (s : string) : jsstring :=
  map N_of_ascii (list_ascii_of_string s).

(** The four characters the sanitizer touches. *)
Definition backslash : codeUnit := 92.
Definition dquote : codeUnit := 34.
Definition dollar : codeUnit := 36.
Definition backtick : codeUnit := 96.

(** [a === b] on strings. *)
Fixpoint eqb (a b : jsstring) : bool :=
  match a, b with
  | [], [] => true
  | x :: a', y :: b' => (x =? y) && eqb a' b'
  | _, _ => false
  end.

(** [s.startsWith(p)]. *)
Fixpoint startsWith (p s : jsstring) : bool :=
  match p, s with
  | [], _ => true
  | x :: p', y :: s' => (x =? y) && startsWith p' s'
  | _ :: _, [] => false
  end.

(** [s.includes(p)]: [p] occurs in [s] at some position. *)
Fixpoint includes (s p : jsstring) : bool :=
  startsWith p s ||
  match s with
  | [] => false
  | _ :: s' => includes s' p
  end.

(** [parts.join(sep)]. *)
Fixpoint join (sep : jsstring) (parts : list jsstring) : jsstring :=
  match parts with
  | [] => []
  | [x] => x
  | x :: rest => x ++ sep ++ join sep rest
  end.

(** ECMAScript WhiteSpace and LineTerminator code points, the characters
    [String.prototype.trim] strips: TAB, LF, VT, FF, CR, SP, NBSP, U+1680,
    U+2000..U+200A, U+2028, U+2029, U+202F, U+205F, U+3000, U+FEFF. *)
Definition isWhiteSpace (c : codeUnit) : bool :=
  ((9 <=? c) && (c <=? 13))
  || (c =? 32) || (c =? 160) || (c =? 5760)
  || ((8192 <=? c) && (c <=? 8202))
  || (c =? 8232) || (c =? 8233) || (c =? 8239) || (c =? 8287)
  || (c =? 12288) || (c =? 65279).

Fixpoint trimStart (s : jsstring) : jsstring :=
  match s with
  | [] => []
  | c :: s' => if isWhiteSpace c then trimStart s' else s
  end.

Definition trimEnd (s : jsstring) : jsstring := rev (trimStart (rev s)).

(** [s.trim()]: white space is removed at both ends. *)
Definition trim (s : jsstring) : jsstring := trimEnd (trimStart s).

(** Truthiness of a string: every string but the empty one. *)
Definition truthy (s : jsstring) : bool :=
  match s with [] => false | _ :: _ => true end.

(** [s.replace(/c/g, r)] for a pattern that is one literal character and a
    replacement text [r] with no substitution pattern in it: every occurrence
    of [c] becomes [r], left to right, and the text inserted is not scanned
    again. *)
Definition replaceAll (c : codeUnit) (r : jsstring) (s : jsstring) : jsstring :=
  flat_map (fun x => if x =? c then r else [x]) s.

End JS.

Import JS.

(** ** The sanitizer (index.ts, lines 38-44)

    Four global replacements, chained in this order: backslash, double quote,
    dollar sign, backtick.  The replacement texts are the two-character
    strings backslash-backslash, backslash-quote, backslash-dollar and
    backslash-backtick; in the third one the dollar sign is the last
    character of the replacement text, where it stands for itself. *)
Definition sanitizeInput (input : jsstring) : jsstring :=
  replaceAll backtick [backslash; backtick]
    (replaceAll dollar [backslash; dollar]
      (replaceAll dquote [backslash; dquote]
        (replaceAll backslash [backslash; backslash] input))).

(** ** Data model (index.ts, lines 17-35, 46-48 and 187-205) *)

(** The argument object of a tool call, as the handler receives it at run
    time: every property may be absent, and the three enumerated options are
    strings (the type aliases [GeminiModel], [ApprovalMode] and
    [OutputFormat] exist only for the type checker). *)
Record GeminiExecuteParams := {
  prompt : option jsstring;
  model : option jsstring;
  approvalMode : option jsstring;
  outputFormat : option jsstring;
  sandbox : option bool;
  workingDirectory : option jsstring;
  includeDirectories : option (list jsstring);
  debug : option bool
}.

(** The members of the three enumerations. *)
Definition GeminiModel : list jsstring :=
  [lit "gemini-2.5-flash"; lit "gemini-2.5-pro";
   lit "gemini-3-flash-preview"; lit "gemini-3-pro-preview"].
Definition ApprovalMode : list jsstring :=
  [lit "default"; lit "auto_edit"; lit "yolo"].
Definition OutputFormat : list jsstring :=
  [lit "text"; lit "json"].

(** What a [catch] clause sees of a thrown value: [{ stderr?, message? }]. *)
Record JsError := {
  stderr : option jsstring;
  message : option jsstring
}.

(** [new Error(msg)], and the same shape for a [TypeError]. *)
Definition Error (msg : jsstring) : JsError :=
  {| stderr := None; message := Some msg |}.

(** A call either returns or throws. *)
Inductive Completion (A : Type) : Type :=
| Normal (a : A)
| Throw (e : JsError).
Arguments Normal {A} a.
Arguments Throw {A} e.

Record TextContent := {
  type : jsstring;
  text : jsstring
}.

Record CallToolResult := {
  content : list TextContent;
  isError : option bool
}.

Definition createTextContent (t : jsstring) : TextContent :=
  {| type := lit "text"; text := t |}.

(** The options [execSync] is called with. *)
Record ExecOptions := {
  encoding : jsstring;
  maxBuffer : N;
  stdio : list jsstring;
  timeout : N;
  cwd : jsstring
}.

(** ** The command builder (index.ts, lines 51-91) *)

(** [x = d] in a destructuring pattern: the default replaces an absent
    property only. *)
Definition withDefault {A : Type} (x : option A) (d : A) : A :=
  match x with Some v => v | None => d end.

Definition push (parts : list jsstring) (x : jsstring) : list jsstring :=
  parts ++ [x].

(** Reading [.replace] off an absent prompt raises a [TypeError]. *)
Definition promptTypeError : JsError :=
  Error (lit "Cannot read properties of undefined (reading 'replace')").

(** The array [parts] as it stands just before [parts.join(" ")]. *)
Definition buildParts (params : GeminiExecuteParams) : Completion (list jsstring) :=
  let model := withDefault (model params) (lit "gemini-3-pro-preview") in
  let approvalMode := withDefault (approvalMode params) (lit "yolo") in
  let outputFormat := withDefault (outputFormat params) (lit "text") in
  let sandbox := withDefault (sandbox params) false in
  let includeDirectories := includeDirectories params in
  let debug := withDefault (debug params) false in
  let parts := [lit "gemini"] in
  match prompt params with
  | None => Throw promptTypeError
  | Some prompt =>
      let parts := push parts (lit "-p " ++ [dquote] ++ sanitizeInput prompt ++ [dquote]) in
      let parts := if truthy model then push parts (lit "-m " ++ model) else parts in
      let parts := push parts (lit "--approval-mode " ++ approvalMode) in
      let parts :=
        if negb (JS.eqb outputFormat (lit "text"))
        then push parts (lit "--output-format " ++ outputFormat) else parts in
      let parts := if sandbox then push parts (lit "-s") else parts in
      let parts :=
        match includeDirectories with
        | Some ((_ :: _) as ds) =>
            let dirs := join (lit ",") (map (fun d => sanitizeInput d) ds) in
            push parts (lit "--include-directories " ++ dirs)
        | _ => parts
        end in
      let parts := if debug then push parts (lit "-d") else parts in
      Normal parts
  end.

Definition buildCommand (params : GeminiExecuteParams) : Completion jsstring :=
  match buildParts params with
  | Normal parts => Normal (join (lit " ") parts)
  | Throw e => Throw e
  end.

(** ** The tool-call handler (index.ts, lines 158-207) *)

(** Reading [.prompt] off an absent argument object raises a [TypeError]. *)
Definition argumentsTypeError : JsError :=
  Error (lit "Cannot read properties of undefined (reading 'prompt')").

(** The options object of the call to [execSync], for the directory [dir]. *)
Definition optionsWith (dir : jsstring) : ExecOptions :=
  {| encoding := lit "utf-8";
     maxBuffer := 10 * 1024 * 1024;
     stdio := [lit "pipe"; lit "pipe"; lit "pipe"];
     timeout := 600000;
     cwd := dir |}.

Section Handler.

(** The outside world: [execSync], and [process.cwd()], which returns the
    current directory or throws when there is none. *)
Variable execSync : jsstring -> ExecOptions -> Completion jsstring.
Variable processCwd : Completion jsstring.

(** One child process: the command line and the options it was run with. *)
Definition Spawn : Type := jsstring * ExecOptions.

(** [a || b] on strings that may be absent. *)
Definition orElse (a : option jsstring) (b : jsstring) : jsstring :=
  match a with
  | Some s => if truthy s then s else b
  | None => b
  end.

Definition installHint : jsstring :=
  [10; 10] ++ lit "Install Gemini CLI: npm install -g @google/gemini-cli".
Definition authHint : jsstring :=
  [10; 10] ++ lit "Try: gemini auth login".

(** The value returned when [execSync] returned [result]. *)
Definition onSuccess (result : jsstring) : CallToolResult :=
  {| content :=
       [createTextContent
          (if truthy (trim result) then trim result else lit "Done (no output)")];
     isError := None |}.

(** The body of the [catch] clause. *)
Definition onError (err : JsError) : CallToolResult :=
  let msg := orElse (stderr err) (orElse (message err) (lit "Unknown error")) in
  let hint :=
    if includes msg (lit "command not found") then installHint
    else if includes msg (lit "auth") then authHint
    else [] in
  {| content := [createTextContent (lit "Error: " ++ msg ++ hint)];
     isError := Some true |}.

(** [params.workingDirectory || process.cwd()]: [process.cwd()] is called
    only when the request names no directory, or an empty one. *)
Definition workingDirectoryOrCwd (params : GeminiExecuteParams) : Completion jsstring :=
  match workingDirectory params with
  | Some w => if truthy w then Normal w else processCwd
  | None => processCwd
  end.

(** The handler's outcome, with the child processes it started, in order.
    [arguments] is the argument object of the call, which a call may leave
    out; [buildCommand], [process.cwd()] and [execSync] run inside the [try]
    block. *)
Definition handler (name : jsstring) (arguments : option GeminiExecuteParams)
  : Completion CallToolResult * list Spawn :=
  if negb (JS.eqb name (lit "gemini_execute")) then
    (Throw (Error (lit "Unknown tool: " ++ name)), [])
  else
    match arguments with
    | None => (Throw argumentsTypeError, [])
    | Some params =>
        if negb (match prompt params with
                 | Some p => truthy (trim p)
                 | None => false
                 end) then
          (Throw (Error (lit "prompt is required")), [])
        else if match includeDirectories params with
                | Some ds => (5 <? List.length ds)%nat
                | None => false
                end then
          (Throw (Error (lit "max 5 directories allowed")), [])
        else
          match buildCommand params with
          | Throw e => (Normal (onError e), [])
          | Normal command =>
              match workingDirectoryOrCwd params with
              | Throw e => (Normal (onError e), [])
              | Normal dir =>
                  match execSync command (optionsWith dir) with
                  | Normal result =>
                      (Normal (onSuccess result), [(command, optionsWith dir)])
                  | Throw e => (Normal (onError e), [(command, optionsWith dir)])
                  end
              end
          end
    end.

End Handler.

(** The options of the child process when [process.cwd()] returns
    [processCwd]. *)
Definition execOptions (processCwd : jsstring) (params : GeminiExecuteParams)
  : ExecOptions :=
  optionsWith (orElse (workingDirectory params) processCwd).

(** ** Specification side *)

(** *** Escaping and its inverse *)

Definition isSpecial (c : codeUnit) : bool :=
  (c =? backslash) || (c =? dquote) || (c =? dollar) || (c =? backtick).

(** What "escaping" a character means: a special character gets one backslash
    in front of it, any other character is left as it is. *)
Definition escapeUnit (c : codeUnit) : jsstring :=
  if isSpecial c then [backslash; c] else [c].

(** The inverse of the four replacements, read left to right: a backslash
    followed by a special character stands for that character. *)
Fixpoint unsanitize (s : jsstring) : jsstring :=
  match s with
  | [] => []
  | c :: t =>
      if c =? backslash then
        match t with
        | d :: t' => if isSpecial d then d :: unsanitize t' else c :: unsanitize t
        | [] => [c]
        end
      else c :: unsanitize t
  end.

(** Extracting a double-quoted segment, starting just after the opening
    quote: the text up to the first quote that is not escaped, unescaped as
    by [unsanitize], and what follows the closing quote. *)
Fixpoint readQuoted (s : jsstring) : option (jsstring * jsstring) :=
  match s with
  | [] => None
  | c :: t =>
      if c =? dquote then Some ([], t)
      else if c =? backslash then
        match t with
        | d :: t' =>
            if isSpecial d then
              option_map (fun r => (d :: fst r, snd r)) (readQuoted t')
            else option_map (fun r => (c :: fst r, snd r)) (readQuoted t)
        | [] => None
        end
      else option_map (fun r => (c :: fst r, snd r)) (readQuoted t)
  end.

(** *** Valid requests *)

(** An optional enumerated property is in its domain when it is absent or
    one of the members. *)
Definition inDomain (dom : list jsstring) (v : option jsstring) : bool :=
  match v with
  | None => true
  | Some x => existsb (JS.eqb x) dom
  end.

(** A string with no character outside the white space set (the empty
    string included). *)
Definition isBlank (s : jsstring) : bool := forallb isWhiteSpace s.

(** The two checks the handler makes before it builds a command
    (index.ts, lines 168-174). *)
Definition passesValidation (p : GeminiExecuteParams) : bool :=
  match prompt p with Some s => negb (isBlank s) | None => false end
  && match includeDirectories p with
     | Some ds => (List.length ds <=? 5)%nat
     | None => true
     end.

(** A valid ExecuteRequest: a prompt with a character that is not white
    space, enumerated options in their domains, at most five directories. *)
Definition validRequest (p : GeminiExecuteParams) : bool :=
  match prompt p with Some s => negb (isBlank s) | None => false end
  && inDomain GeminiModel (model p)
  && inDomain ApprovalMode (approvalMode p)
  && inDomain OutputFormat (outputFormat p)
  && match includeDirectories p with
     | Some ds => (List.length ds <=? 5)%nat
     | None => true
     end.

(** *** Reading a command line as words *)

(** How a shell splits a line into words, as far as spaces, double quotes
    and backslashes go: outside quotes a space ends a word and a backslash
    takes the next character as it is; inside double quotes a backslash
    takes the next character when that is one of the four special ones, and
    the quotes themselves are dropped.  [cur] is the word being read, if
    one has begun. *)
Fixpoint shellWordsFrom (inQuote : bool) (cur : option jsstring) (s : jsstring)
  : list jsstring :=
  let add c := Some (match cur with Some w => w ++ [c] | None => [c] end) in
  let done := match cur with Some w => [w] | None => [] end in
  match s with
  | [] => done
  | c :: t =>
      if inQuote then
        if c =? dquote then shellWordsFrom false cur t
        else if c =? backslash then
          match t with
          | d :: t' =>
              if isSpecial d then shellWordsFrom true (add d) t'
              else shellWordsFrom true (add c) t
          | [] => shellWordsFrom true (add c) t
          end
        else shellWordsFrom true (add c) t
      else
        if c =? 32 then done ++ shellWordsFrom false None t
        else if c =? dquote then
          shellWordsFrom true (Some (match cur with Some w => w | None => [] end)) t
        else if c =? backslash then
          match t with
          | d :: t' => shellWordsFrom false (add d) t'
          | [] => shellWordsFrom false (add c) t
          end
        else shellWordsFrom false (add c) t
  end.

Definition shellWords (s : jsstring) : list jsstring :=
  shellWordsFrom false None s.

(** How many of the words are [w]. *)
Definition countWord (w : jsstring) (words : list jsstring) : nat :=
  List.length (filter (JS.eqb w) words).

(** A piece of the command line that is there or not: a space and the
    text, or nothing. *)
Definition optionalText (b : bool) (x : jsstring) : jsstring :=
  if b then lit " " ++ x else [].

Definition optional {A : Type} (b : bool) (x : A) : list A :=
  if b then [x] else [].

(** The two parts that carry free text. *)
Definition promptToken (s : jsstring) : jsstring :=
  lit "-p " ++ [dquote] ++ sanitizeInput s ++ [dquote].
Definition includeToken (ds : list jsstring) : jsstring :=
  lit "--include-directories " ++ join (lit ",") (map sanitizeInput ds).

(** *** Requests and outcomes the theorems are instantiated at *)

(** A prompt with a dollar sign, two directories, JSON output, sandbox. *)
Definition sampleRequest : GeminiExecuteParams :=
  {| prompt := Some (lit "list $HOME");
     model := None;
     approvalMode := None;
     outputFormat := Some (lit "json");
     sandbox := Some true;
     workingDirectory := None;
     includeDirectories := Some [lit "src"; lit "docs"];
     debug := None |}.

(** A prompt made of a space, a tab and a line feed. *)
Definition blankPromptRequest : GeminiExecuteParams :=
  {| prompt := Some [32; 9; 10];
     model := Some (lit "gemini-2.5-pro");
     approvalMode := None;
     outputFormat := None;
     sandbox := None;
     workingDirectory := None;
     includeDirectories := None;
     debug := None |}.

Definition sixDirectoriesRequest : GeminiExecuteParams :=
  {| prompt := Some (lit "count files");
     model := None;
     approvalMode := None;
     outputFormat := None;
     sandbox := None;
     workingDirectory := None;
     includeDirectories :=
       Some [lit "a"; lit "b"; lit "c"; lit "d"; lit "e"; lit "f"];
     debug := None |}.


(** The standard output of the specification's example: two spaces, [done],
    two spaces, a line feed. *)
Definition doneStdout : jsstring := lit "  done  " ++ [10].

(** An error of the kind [execSync] throws when the shell cannot find the
    binary. *)
Definition notFoundError : JsError :=
  {| stderr := Some (lit "/bin/sh: 1: gemini: command not found");
     message := Some (lit "Command failed: gemini") |}.

(** *** More on the sanitizer's output *)

(** Scanning left to right, with a backslash taking the character after it:
    is there a special character that no backslash escapes, or a backslash
    with nothing after it? *)
Fixpoint bareSpecial (s : jsstring) : bool :=
  match s with
  | [] => false
  | c :: t =>
      if c =? backslash then
        match t with
        | [] => true
        | _ :: t' => bareSpecial t'
        end
      else isSpecial c || bareSpecial t
  end.

(** *** Requests that differ in one property *)

Definition setModel (v : option jsstring) (p : GeminiExecuteParams) : GeminiExecuteParams :=
  {| prompt := prompt p; model := v; approvalMode := approvalMode p;
     outputFormat := outputFormat p; sandbox := sandbox p;
     workingDirectory := workingDirectory p;
     includeDirectories := includeDirectories p; debug := debug p |}.

Definition setWorkingDirectory (v : option jsstring) (p : GeminiExecuteParams)
  : GeminiExecuteParams :=
  {| prompt := prompt p; model := model p; approvalMode := approvalMode p;
     outputFormat := outputFormat p; sandbox := sandbox p;
     workingDirectory := v;
     includeDirectories := includeDirectories p; debug := debug p |}.

Definition setIncludeDirectories (v : option (list jsstring)) (p : GeminiExecuteParams)
  : GeminiExecuteParams :=
  {| prompt := prompt p; model := model p; approvalMode := approvalMode p;
     outputFormat := outputFormat p; sandbox := sandbox p;
     workingDirectory := workingDirectory p;
     includeDirectories := v; debug := debug p |}.

(** The defaults the tool schema declares (index.ts, lines 116-146):
    [approvalMode] "yolo", [outputFormat] "text", [sandbox] false, [debug]
    false; the other properties have none. *)
Definition schemaDefaults : GeminiExecuteParams :=
  {| prompt := None;
     model := None;
     approvalMode := Some (lit "yolo");
     outputFormat := Some (lit "text");
     sandbox := Some false;
     workingDirectory := None;
     includeDirectories := None;
     debug := Some false |}.

(** What a client does that fills in declared defaults: a property the
    request leaves out takes the value of [d], when [d] has one. *)
Definition orDefault {A : Type} (x d : option A) : option A :=
  match x with Some v => Some v | None => d end.

Definition fillDefaults (d p : GeminiExecuteParams) : GeminiExecuteParams :=
  {| prompt := orDefault (prompt p) (prompt d);
     model := orDefault (model p) (model d);
     approvalMode := orDefault (approvalMode p) (approvalMode d);
     outputFormat := orDefault (outputFormat p) (outputFormat d);
     sandbox := orDefault (sandbox p) (sandbox d);
     workingDirectory := orDefault (workingDirectory p) (workingDirectory d);
     includeDirectories := orDefault (includeDirectories p) (includeDirectories d);
     debug := orDefault (debug p) (debug d) |}.



(** The four errors the handler throws. *)
Definition handlerErrors (name : jsstring) : list JsError :=
  [Error (lit "Unknown tool: " ++ name);
   argumentsTypeError;
   Error (lit "prompt is required");
   Error (lit "max 5 directories allowed")].

(** *** Inputs at which the code departs from the specification *)

(** A request with only a prompt and the given directories. *)
Definition promptAndDirectories (p : jsstring) (ds : option (list jsstring))
  : GeminiExecuteParams :=
  {| prompt := Some p;
     model := None;
     approvalMode := None;
     outputFormat := None;
     sandbox := None;
     workingDirectory := None;
     includeDirectories := ds;
     debug := None |}.

(** A model made of shell text. *)
Definition shellModel : jsstring := lit "x; echo $HOME `id`".

Definition shellModelRequest : GeminiExecuteParams :=
  setModel (Some shellModel) (promptAndDirectories (lit "hi") None).

(** Valid requests with a directory whose path has spaces in it. *)
Definition flagsInDirectoryRequest : GeminiExecuteParams :=
  promptAndDirectories (lit "say $HI")
    (Some [lit "x --approval-mode default -m gpt-4 -p evil"]).

Definition optionsInDirectoryRequest : GeminiExecuteParams :=
  promptAndDirectories (lit "hi")
    (Some [lit "a$b"; lit "x --output-format json -s -d"]).

Definition modelInDirectoryRequest : GeminiExecuteParams :=
  promptAndDirectories (lit "hi") (Some [lit "x -m gpt-4"]).

(** An error whose text has both indicators. *)
Definition bothIndicatorsError : JsError :=
  {| stderr := Some (lit "sh: 1: gemini: command not found (auth expired?)");
     message := Some (lit "Command failed: gemini") |}.

(** ** The setup verification (verify-setup.ts) *)

Module VerifySetup.

(** The two marks the results carry: U+2705 and U+274C. *)
Definition okMark : codeUnit := 9989.
Definition failMark : codeUnit := 10060.

(** [CheckConfig] (lines 8-14). *)
Record CheckConfig := {
  name : jsstring;
  command : jsstring;
  required : bool;
  validate : jsstring -> jsstring;
  failureHelp : option jsstring
}.

(** [runCommand] (lines 19-28).  [execSync] is called with constant options
    (encoding and stdio); whatever it throws is replaced by one error. *)
Definition runCommand (execSync : jsstring -> Completion jsstring)
    (command : jsstring) : Completion jsstring :=
  match execSync command with
  | Normal out => Normal (trim out)
  | Throw _ => Throw (Error (lit "Command failed"))
  end.

(** [\d]: an ASCII digit. *)
Definition isDigit (c : codeUnit) : bool := (48 <=? c) && (c <=? 57).

(** The longest prefix of digits. *)
Fixpoint takeDigits (s : jsstring) : jsstring :=
  match s with
  | [] => []
  | c :: t => if isDigit c then c :: takeDigits t else []
  end.

(** [output.match(/v(\d+)/)]: the capture group of the leftmost match, the
    digits after the first [v] that has a digit after it, as many as there
    are. *)
Fixpoint matchVersion (s : jsstring) : option jsstring :=
  match s with
  | [] => None
  | c :: t =>
      if c =? 118 then
        match takeDigits t with
        | [] => matchVersion t
        | d :: ds => Some (d :: ds)
        end
      else matchVersion t
  end.

(** [parseInt(s, 10)] on a string of digits.  The value is exact here; the
    source compares a double with 18, and rounding to a double never moves a
    value across 18. *)
Definition parseInt10 (s : jsstring) : N :=
  fold_left (fun acc c => acc * 10 + (c - 48)) (takeDigits s) 0.

(** The four [validate] functions (lines 38-46, 52, 58, 65-69). *)
Definition validateNode (output : jsstring) : jsstring :=
  match matchVersion output with
  | None => [failMark] ++ lit " FAIL (cannot parse version)"
  | Some digits =>
      let version := parseInt10 digits in
      if 18 <=? version
      then [okMark] ++ lit " OK (" ++ output ++ lit ")"
      else [failMark] ++ lit " FAIL (" ++ output ++ lit ", need v18+)"
  end.

Definition validateNpm (output : jsstring) : jsstring :=
  [okMark] ++ lit " OK (v" ++ output ++ lit ")".

Definition validateGemini (output : jsstring) : jsstring :=
  [okMark] ++ lit " OK (" ++ output ++ lit ")".

Definition validateKey (output : jsstring) : jsstring :=
  if truthy output && (10 <? List.length output)%nat
  then [okMark] ++ lit " OK (API key found)"
  else [failMark] ++ lit " Not configured".

(** [checks] (lines 33-73). *)
Definition checks : list CheckConfig :=
  [ {| name := lit "Node.js version";
       command := lit "node --version";
       required := true;
       validate := validateNode;
       failureHelp := None |};
    {| name := lit "npm installed";
       command := lit "npm --version";
       required := true;
       validate := validateNpm;
       failureHelp := None |};
    {| name := lit "Gemini CLI installed";
       command := lit "gemini-cli --version";
       required := true;
       validate := validateGemini;
       failureHelp := Some (lit "Install with: npm install -g @gemini-api/cli") |};
    {| name := lit "Gemini API key configured";
       command := lit "gemini-cli config get apiKey";
       required := true;
       validate := validateKey;
       failureHelp :=
         Some (lit "Configure with:" ++ [10] ++ lit "  " ++ [8594]
               ++ lit " gemini-cli config set apiKey YOUR_KEY" ++ [10]
               ++ lit "  " ++ [8594]
               ++ lit " Get key from: https://makersuite.google.com/app/apikey") |} ].

(** [s.split(c)] for a separator of one character. *)
Fixpoint split (c : codeUnit) (s : jsstring) : list jsstring :=
  match s with
  | [] => [[]]
  | x :: t =>
      if x =? c then [] :: split c t
      else match split c t with
           | h :: r => (x :: h) :: r
           | [] => [[x]]
           end
  end.

(** [s.padEnd(n)]: spaces are added up to length [n]. *)
Definition padEnd (n : nat) (s : jsstring) : jsstring :=
  s ++ repeat 32 (n - List.length s)%nat.

(** The help lines of a check, as passed to [console.log] (lines 93-95 and
    101-103): nothing when the check has no help text. *)
Definition helpLines (check : CheckConfig) : list jsstring :=
  match failureHelp check with
  | Some h =>
      if truthy h
      then [lit "  " ++ join ([10] ++ lit "  ") (split 10 h)]
      else []
  | None => []
  end.

(** [displayResults] (lines 114-133): the lines it logs. *)
Definition displayResults (allPassed : bool) : list jsstring :=
  [[]]
  ++ (if allPassed then
        [[okMark] ++ lit " All checks passed! You're ready to use gemini-bridge-mcp";
         [10; 55357; 56523] ++ lit " Next steps:";
         lit "  1. Configure in your MCP client (Claude Desktop, VS Code, etc.)";
         lit "  2. Restart your MCP client";
         lit "  3. Try: 'Use Gemini to create a test file'";
         [10; 55357; 56534] ++ lit " See README.md for configuration examples"]
      else
        [[failMark] ++ lit " Some checks failed. Please fix the issues above.";
         [10; 55357; 56615] ++ lit " Quick fixes:";
         lit "  " ++ [8226] ++ lit " Install Gemini CLI: npm install -g @gemini-api/cli";
         lit "  " ++ [8226] ++ lit " Get API key: https://makersuite.google.com/app/apikey";
         lit "  " ++ [8226] ++ lit " Set API key: gemini-cli config set apiKey YOUR_KEY"])
  ++ [[]].

(** The state of the loop of [runChecks]: the lines logged, the commands
    run, and [allPassed]. *)
Record RunState := {
  logged : list jsstring;
  ran : list jsstring;
  allPassed : bool
}.

Section Run.

Variable execSync : jsstring -> Completion jsstring.

(** One iteration of the loop (lines 84-105). *)
Definition runCheck (st : RunState) (check : CheckConfig) : RunState :=
  match runCommand execSync (command check) with
  | Normal output =>
      let result := validate check output in
      let line := padEnd 30 (name check) ++ lit " " ++ result in
      if includes result [failMark] then
        {| logged := logged st ++ [line] ++ helpLines check;
           ran := ran st ++ [command check];
           allPassed := false |}
      else
        {| logged := logged st ++ [line];
           ran := ran st ++ [command check];
           allPassed := allPassed st |}
  | Throw _ =>
      {| logged := logged st
                   ++ [padEnd 30 (name check) ++ lit " " ++ [failMark] ++ lit " NOT FOUND"]
                   ++ helpLines check;
         ran := ran st ++ [command check];
         allPassed := false |}
  end.

Definition rule : jsstring := repeat 61 60.

(** [runChecks] (lines 78-109). *)
Definition runChecks : RunState :=
  let st :=
    {| logged := [[55357; 56589] ++ lit " Gemini Bridge MCP Server - Setup Verification"
                    ++ [10];
                  rule];
       ran := [];
       allPassed := true |} in
  let st := fold_left runCheck checks st in
  {| logged := logged st ++ [rule]; ran := ran st; allPassed := allPassed st |}.

(** [main] (lines 138-144): the state after the checks and the closing
    message, and the exit code. *)
Definition main : RunState * N :=
  let st := runChecks in
  ({| logged := logged st ++ displayResults (allPassed st);
      ran := ran st;
      allPassed := allPassed st |},
   if allPassed st then 0 else 1).

End Run.

End VerifySetup.

(** Whether one check of the setup verification passes: its command
    returns and the result of its validator has no failure mark. *)
Definition checkPasses (execSync : jsstring -> Completion jsstring)
    (check : VerifySetup.CheckConfig) : bool :=
  match VerifySetup.runCommand execSync (VerifySetup.command check) with
  | Normal output =>
      negb (includes (VerifySetup.validate check output) [VerifySetup.failMark])
  | Throw _ => false
  end.

(** The decimal value of a string of digits. *)
Definition decimalValue (ds : jsstring) : N :=
  fold_left (fun acc c => acc * 10 + (c - 48)) ds 0.

(** An environment in which every probe of the setup verification
    succeeds, and one in which no command can be run. *)
Definition healthyExec (command : jsstring) : Completion jsstring :=
  if JS.eqb command (lit "node --version") then Normal (lit "v20.11.1" ++ [10])
  else if JS.eqb command (lit "npm --version") then Normal (lit "10.2.4" ++ [10])
  else if JS.eqb command (lit "gemini-cli --version") then Normal (lit "0.3.0" ++ [10])
  else if JS.eqb command (lit "gemini-cli config get apiKey")
       then Normal (lit "AIzaSyExampleKey0123" ++ [10])
  else Throw (Error (lit "spawn failed")).

(** ** Lemmas on the sanitizer *)

Lemma replaceAll_flat_map (c : codeUnit) (r : jsstring) (f : codeUnit -> jsstring) (s : jsstring) :
  replaceAll c r (flat_map f s) = flat_map (fun x => replaceAll c r (f x)) s.
Proof.
  induction s as [|x s IH]; cbn [flat_map].
  - reflexivity.
  - rewrite <- IH. unfold replaceAll. apply flat_map_app.
Qed.

Lemma replaceAll_as_flat_map (c : codeUnit) (r : jsstring) (s : jsstring) :
  replaceAll c r s = flat_map (fun x => if x =? c then r else [x]) s.
Proof. reflexivity. Qed.

(** The chain of four replacements escapes every character exactly once. *)
Lemma sanitizeInput_escapeUnit (s : jsstring) :
  sanitizeInput s = flat_map escapeUnit s.
Proof.
  unfold sanitizeInput.
  rewrite (replaceAll_as_flat_map backslash).
  rewrite !replaceAll_flat_map.
  apply flat_map_ext. intros x.
  unfold escapeUnit, isSpecial, backslash, dquote, dollar, backtick.
  destruct (N.eqb_spec x 92) as [->|Hb]; [reflexivity|].
  destruct (N.eqb_spec x 34) as [->|Hq]; [reflexivity|].
  destruct (N.eqb_spec x 36) as [->|Hd]; [reflexivity|].
  destruct (N.eqb_spec x 96) as [->|Ht]; [reflexivity|].
  simpl.
  destruct (N.eqb_spec x 34); [contradiction|]. simpl.
  destruct (N.eqb_spec x 36); [contradiction|]. simpl.
  destruct (N.eqb_spec x 96); [contradiction|]. reflexivity.
Qed.

Lemma isSpecial_backslash_false (c : codeUnit) :
  isSpecial c = false -> (c =? backslash) = false.
Proof.
  unfold isSpecial. intros H.
  destruct (c =? backslash); [discriminate|reflexivity].
Qed.

Lemma isSpecial_dquote_false (c : codeUnit) :
  isSpecial c = false -> (c =? dquote) = false.
Proof.
  unfold isSpecial. intros H.
  destruct (c =? dquote); [|reflexivity].
  rewrite orb_true_r in H. discriminate.
Qed.

Lemma unsanitize_escaped (s : jsstring) :
  unsanitize (flat_map escapeUnit s) = s.
Proof.
  induction s as [|c s IH]; [reflexivity|].
  cbn [flat_map]. unfold escapeUnit at 1.
  destruct (isSpecial c) eqn:Hc.
  - cbn [app unsanitize]. rewrite N.eqb_refl, Hc, IH. reflexivity.
  - cbn [app unsanitize].
    rewrite (isSpecial_backslash_false c Hc), IH. reflexivity.
Qed.

(** The closing quote found after sanitized text is the one that was put
    there: no character of the text ends the segment early. *)
Lemma readQuoted_escaped (s rest : jsstring) :
  readQuoted (flat_map escapeUnit s ++ dquote :: rest) = Some (s, rest).
Proof.
  induction s as [|c s IH].
  - cbn. reflexivity.
  - cbn [flat_map]. unfold escapeUnit at 1.
    destruct (isSpecial c) eqn:Hc.
    + cbn [app readQuoted].
      replace (backslash =? dquote) with false by reflexivity.
      rewrite N.eqb_refl, Hc, IH. reflexivity.
    + cbn [app readQuoted].
      rewrite (isSpecial_dquote_false c Hc), (isSpecial_backslash_false c Hc), IH.
      reflexivity.
Qed.

(** The order of the replacements matters: with the backslash escaped last,
    the backslash put before a quote would be doubled. *)
Example backslash_last_differs :
  replaceAll backslash [backslash; backslash]
    (replaceAll dquote [backslash; dquote] [dquote])
  = [backslash; backslash; dquote]
  /\ sanitizeInput [dquote] = [backslash; dquote].
Proof. split; reflexivity. Qed.

(** ** Lemmas on strings *)

Lemma jsstring_eqb_eq (a b : jsstring) : JS.eqb a b = true <-> a = b.
Proof.
  revert b. induction a as [|x a IH]; intros [|y b]; cbn; split;
    try reflexivity; try discriminate.
  - intros H. apply andb_true_iff in H. destruct H as [Hx Hab].
    apply N.eqb_eq in Hx. apply IH in Hab. congruence.
  - intros H. injection H as -> ->. rewrite N.eqb_refl. apply IH. reflexivity.
Qed.

Lemma startsWith_spec (p s : jsstring) :
  startsWith p s = true <-> exists b, s = p ++ b.
Proof.
  revert s. induction p as [|x p IH]; intros s.
  - cbn. split; [intros _; exists s; reflexivity|reflexivity].
  - destruct s as [|y s]; cbn.
    + split; [discriminate|]. intros (b & E). discriminate E.
    + rewrite andb_true_iff, N.eqb_eq, IH. split.
      * intros (-> & b & ->). exists b. reflexivity.
      * intros (b & E). injection E as -> ->. split; [reflexivity|now exists b].
Qed.

(** [includes s p] holds exactly when [p] is a substring of [s]. *)
Lemma includes_spec (s p : jsstring) :
  includes s p = true <-> exists a b, s = a ++ p ++ b.
Proof.
  induction s as [|c s IH].
  - cbn [includes]. rewrite orb_false_r, startsWith_spec. split.
    + intros (b & E). exists [], b. exact E.
    + intros (a & b & E). destruct a; [|discriminate E]. exists b. exact E.
  - cbn [includes]. rewrite orb_true_iff, startsWith_spec, IH. split.
    + intros [(b & E)|(a & b & E)].
      * exists [], b. exact E.
      * exists (c :: a), b. cbn. congruence.
    + intros (a & b & E). destruct a as [|c' a].
      * left. exists b. exact E.
      * right. injection E as _ E. exists a, b. exact E.
Qed.

(** ** Lemmas on [trim] *)

Lemma isBlank_app (a b : jsstring) : isBlank (a ++ b) = isBlank a && isBlank b.
Proof. apply forallb_app. Qed.

Lemma isBlank_rev (a : jsstring) : isBlank (rev a) = isBlank a.
Proof.
  induction a as [|c a IH]; [reflexivity|].
  cbn [rev]. rewrite isBlank_app, IH. cbn. rewrite andb_true_r. apply andb_comm.
Qed.

(** [trimStart] removes a blank prefix and stops at a character that is not
    white space. *)
Lemma trimStart_spec (s : jsstring) :
  exists l, s = l ++ trimStart s
            /\ isBlank l = true
            /\ (forall c, hd_error (trimStart s) = Some c -> isWhiteSpace c = false).
Proof.
  induction s as [|c s (l & E & B & H)].
  - exists []. cbn. repeat split. discriminate.
  - cbn [trimStart]. destruct (isWhiteSpace c) eqn:W.
    + exists (c :: l). split; [cbn [app]; congruence|].
      split; [|exact H]. unfold isBlank in *. cbn [forallb]. rewrite W, B. reflexivity.
    + exists []. split; [reflexivity|]. split; [reflexivity|].
      intros c' [= <-]. exact W.
Qed.

Lemma trimStart_blank (s : jsstring) : isBlank s = true -> trimStart s = [].
Proof.
  induction s as [|c s IH]; [reflexivity|].
  cbn. intros H. apply andb_true_iff in H. destruct H as [-> H]. auto.
Qed.

Lemma trimStart_not_blank (s : jsstring) :
  isBlank s = false -> truthy (trimStart s) = true.
Proof.
  induction s as [|c s IH]; [discriminate|].
  cbn. destruct (isWhiteSpace c); cbn; auto.
Qed.

Lemma trimStart_keeps_not_blank (s : jsstring) :
  isBlank s = false -> isBlank (trimStart s) = false.
Proof.
  induction s as [|c s IH]; [discriminate|].
  cbn. destruct (isWhiteSpace c) eqn:W; cbn; [auto|]. rewrite W. reflexivity.
Qed.

Lemma truthy_rev (s : jsstring) : truthy (rev s) = truthy s.
Proof.
  destruct s as [|c s]; [reflexivity|]. cbn.
  destruct (rev s); reflexivity.
Qed.

(** [trim] leaves the empty string exactly on blank input. *)
Lemma truthy_trim (s : jsstring) : truthy (trim s) = negb (isBlank s).
Proof.
  unfold trim, trimEnd. rewrite truthy_rev.
  destruct (isBlank s) eqn:B.
  - rewrite (trimStart_blank s B). reflexivity.
  - apply trimStart_not_blank. rewrite isBlank_rev.
    apply trimStart_keeps_not_blank. exact B.
Qed.

(** [trim] cuts a blank prefix and a blank suffix, and what is left neither
    starts nor ends with white space. *)
Lemma trim_spec (s : jsstring) :
  exists l r,
    s = l ++ trim s ++ r
    /\ isBlank l = true /\ isBlank r = true
    /\ (forall c, hd_error (trim s) = Some c -> isWhiteSpace c = false)
    /\ (forall c, hd_error (rev (trim s)) = Some c -> isWhiteSpace c = false).
Proof.
  destruct (trimStart_spec s) as (l & El & Bl & Hl).
  destruct (trimStart_spec (rev (trimStart s))) as (r & Er & Br & Hr).
  assert (Eu : trimStart s = trim s ++ rev r).
  { rewrite <- (rev_involutive (trimStart s)), Er at 1.
    rewrite rev_app_distr. reflexivity. }
  exists l, (rev r). repeat split.
  - rewrite <- Eu. exact El.
  - exact Bl.
  - rewrite isBlank_rev. exact Br.
  - intros c Hc. apply Hl. rewrite Eu.
    destruct (trim s); [discriminate|exact Hc].
  - intros c Hc. apply Hr. unfold trim, trimEnd in Hc.
    rewrite rev_involutive in Hc. exact Hc.
Qed.

(** ** Lemmas on the builder *)

(** The array built by the pushes, written as one list. *)
Lemma buildParts_closed_form (p : GeminiExecuteParams) (s : jsstring) :
  prompt p = Some s ->
  buildParts p =
    Normal
      ([lit "gemini"; promptToken s]
       ++ optional (truthy (withDefault (model p) (lit "gemini-3-pro-preview")))
            (lit "-m " ++ withDefault (model p) (lit "gemini-3-pro-preview"))
       ++ [lit "--approval-mode " ++ withDefault (approvalMode p) (lit "yolo")]
       ++ optional (negb (JS.eqb (withDefault (outputFormat p) (lit "text")) (lit "text")))
            (lit "--output-format " ++ withDefault (outputFormat p) (lit "text"))
       ++ optional (withDefault (sandbox p) false) (lit "-s")
       ++ optional (match includeDirectories p with Some (_ :: _) => true | _ => false end)
            (includeToken (withDefault (includeDirectories p) []))
       ++ optional (withDefault (debug p) false) (lit "-d")).
Proof.
  intros Hp. unfold buildParts. rewrite Hp.
  destruct (truthy (withDefault (model p) (lit "gemini-3-pro-preview")));
  destruct (negb (JS.eqb (withDefault (outputFormat p) (lit "text")) (lit "text")));
  destruct (withDefault (sandbox p) false);
  destruct (withDefault (debug p) false);
  destruct (includeDirectories p) as [[|d ds]|];
  reflexivity.
Qed.

Lemma buildCommand_join (p : GeminiExecuteParams) (parts : list jsstring) :
  buildParts p = Normal parts -> buildCommand p = Normal (join (lit " ") parts).
Proof. unfold buildCommand. intros ->. reflexivity. Qed.

(** The rendered command starts with the binary, the prompt flag and the
    sanitized prompt between double quotes. *)
Lemma buildCommand_prompt_segment (p : GeminiExecuteParams) (s : jsstring) :
  prompt p = Some s ->
  exists rest,
    buildCommand p
    = Normal (lit "gemini -p " ++ [dquote] ++ sanitizeInput s ++ dquote :: rest).
Proof.
  intros Hs.
  rewrite (buildCommand_join p _ (buildParts_closed_form p s Hs)).
  destruct (truthy (withDefault (model p) (lit "gemini-3-pro-preview")));
    cbn [optional app]; eexists;
    (change (join (lit " ") (lit "gemini" :: promptToken s :: ?c :: ?l))
       with (lit "gemini" ++ lit " " ++ promptToken s ++ lit " " ++ join (lit " ") (c :: l))
     || idtac);
    unfold promptToken; rewrite <- !app_assoc; reflexivity.
Qed.

(** The command line as one string. *)
Lemma buildCommand_rendered (p : GeminiExecuteParams) (s : jsstring) :
  prompt p = Some s ->
  buildCommand p =
    Normal
      (lit "gemini " ++ promptToken s
       ++ optionalText (truthy (withDefault (model p) (lit "gemini-3-pro-preview")))
            (lit "-m " ++ withDefault (model p) (lit "gemini-3-pro-preview"))
       ++ lit " --approval-mode " ++ withDefault (approvalMode p) (lit "yolo")
       ++ optionalText
            (negb (JS.eqb (withDefault (outputFormat p) (lit "text")) (lit "text")))
            (lit "--output-format " ++ withDefault (outputFormat p) (lit "text"))
       ++ optionalText (withDefault (sandbox p) false) (lit "-s")
       ++ optionalText
            (match includeDirectories p with Some (_ :: _) => true | _ => false end)
            (includeToken (withDefault (includeDirectories p) []))
       ++ optionalText (withDefault (debug p) false) (lit "-d")).
Proof.
  intros Hs.
  rewrite (buildCommand_join p _ (buildParts_closed_form p s Hs)).
  f_equal.
  destruct (truthy (withDefault (model p) (lit "gemini-3-pro-preview")));
    destruct (negb (JS.eqb (withDefault (outputFormat p) (lit "text")) (lit "text")));
    destruct (withDefault (sandbox p) false);
    destruct (withDefault (debug p) false);
    destruct (includeDirectories p) as [[|d ds]|];
    cbn [optional optionalText app join withDefault];
    rewrite <- ?app_assoc, ?app_nil_r; reflexivity.
Qed.

(** ** Lemmas on the handler *)

Section HandlerFacts.

Variable execSync : jsstring -> ExecOptions -> Completion jsstring.

Lemma passesValidation_prompt (p : GeminiExecuteParams) :
  passesValidation p = true -> exists s, prompt p = Some s /\ isBlank s = false.
Proof.
  unfold passesValidation. intros H. apply andb_true_iff in H. destruct H as [H _].
  destruct (prompt p) as [s|]; [|discriminate].
  exists s. split; [reflexivity|]. now apply negb_true_iff.
Qed.

Lemma workingDirectoryOrCwd_Normal (d : jsstring) (p : GeminiExecuteParams) :
  workingDirectoryOrCwd (Normal d) p = Normal (orElse (workingDirectory p) d).
Proof.
  unfold workingDirectoryOrCwd, orElse.
  destruct (workingDirectory p) as [w|]; [destruct (truthy w)|]; reflexivity.
Qed.

(** Past the two checks the handler builds the command, asks for the
    directory, runs the command once and shapes the outcome. *)
Lemma handler_validated (processCwd : Completion jsstring) (p : GeminiExecuteParams) :
  passesValidation p = true ->
  exists command,
    buildCommand p = Normal command
    /\ handler execSync processCwd (lit "gemini_execute") (Some p) =
       match workingDirectoryOrCwd processCwd p with
       | Throw e => (Normal (onError e), [])
       | Normal dir =>
           match execSync command (optionsWith dir) with
           | Normal result =>
               (Normal (onSuccess result), [(command, optionsWith dir)])
           | Throw e => (Normal (onError e), [(command, optionsWith dir)])
           end
       end.
Proof.
  intros V. destruct (passesValidation_prompt p V) as (s & Hs & Bs).
  pose proof (buildCommand_join p _ (buildParts_closed_form p s Hs)) as E.
  eexists. split; [exact E|].
  unfold handler.
  replace (JS.eqb (lit "gemini_execute") (lit "gemini_execute")) with true by reflexivity.
  cbn [negb]. rewrite Hs, truthy_trim, Bs. cbn [negb].
  unfold passesValidation in V. rewrite Hs, Bs in V. cbn [negb andb] in V.
  destruct (includeDirectories p) as [ds|].
  - apply Nat.leb_le in V.
    destruct (Nat.ltb_spec 5 (List.length ds)) as [L|L]; [lia|].
    rewrite E. reflexivity.
  - rewrite E. reflexivity.
Qed.

(** The same when [process.cwd()] returns. *)
Lemma handler_after_validation (processCwd : jsstring) (p : GeminiExecuteParams) :
  passesValidation p = true ->
  exists command,
    buildCommand p = Normal command
    /\ handler execSync (Normal processCwd) (lit "gemini_execute") (Some p) =
       match execSync command (execOptions processCwd p) with
       | Normal result =>
           (Normal (onSuccess result), [(command, execOptions processCwd p)])
       | Throw e => (Normal (onError e), [(command, execOptions processCwd p)])
       end.
Proof.
  intros V. destruct (handler_validated (Normal processCwd) p V) as (command & E & H).
  exists command. split; [exact E|].
  rewrite H, workingDirectoryOrCwd_Normal. reflexivity.
Qed.

End HandlerFacts.

(** ** The sanitizer and the builder: claims of the specification *)

(** C1. For every string, and so for every prompt with any mix of backslash,
    double quote, dollar sign and backtick, undoing the four replacements on
    the sanitizer's output gives back the original text; hence the sanitizer
    is injective.  In the rendered command line the prompt segment, read from
    the opening quote to the first quote that is not escaped and unescaped,
    is the original prompt. *)
Theorem sanitizeInput_round_trip :
  (forall s : jsstring, unsanitize (sanitizeInput s) = s)
  /\ (forall s t : jsstring, sanitizeInput s = sanitizeInput t -> s = t)
  /\ (forall (p : GeminiExecuteParams) (s : jsstring),
        prompt p = Some s ->
        exists rest,
          buildCommand p
          = Normal (lit "gemini -p " ++ [dquote] ++ sanitizeInput s ++ dquote :: rest)
          /\ readQuoted (sanitizeInput s ++ dquote :: rest) = Some (s, rest)).
Proof.
  assert (R : forall s, unsanitize (sanitizeInput s) = s).
  { intros s. rewrite sanitizeInput_escapeUnit. apply unsanitize_escaped. }
  split; [exact R|]. split.
  - intros s t E. rewrite <- (R s), <- (R t), E. reflexivity.
  - intros p s Hs. destruct (buildCommand_prompt_segment p s Hs) as (rest & E).
    exists rest. split; [exact E|].
    rewrite sanitizeInput_escapeUnit. apply readQuoted_escaped.
Qed.

Lemma sanitizeInput_round_trip_witness :
  unsanitize (sanitizeInput [backslash; dquote; 97; dollar; backtick; backslash])
    = [backslash; dquote; 97; dollar; backtick; backslash]
  /\ (sanitizeInput [dollar; backslash] = sanitizeInput [dollar; backslash]
      -> [dollar; backslash] = [dollar; backslash])
  /\ (prompt sampleRequest = Some (lit "list $HOME")
      -> exists rest,
          buildCommand sampleRequest
          = Normal (lit "gemini -p " ++ [dquote] ++ sanitizeInput (lit "list $HOME")
                    ++ dquote :: rest)
          /\ readQuoted (sanitizeInput (lit "list $HOME") ++ dquote :: rest)
             = Some (lit "list $HOME", rest)).
Proof.
  split; [|split].
  - exact (proj1 sanitizeInput_round_trip
             [backslash; dquote; 97; dollar; backtick; backslash]).
  - exact (proj1 (proj2 sanitizeInput_round_trip) [dollar; backslash] [dollar; backslash]).
  - exact (proj2 (proj2 sanitizeInput_round_trip) sampleRequest (lit "list $HOME")).
Defined.

(** The sanitizer on a prompt with each of the four characters. *)
Example sanitizeInput_example :
  sanitizeInput (lit "a\b" ++ [dquote] ++ lit "c$d`e")
  = lit "a\\b\" ++ [dquote] ++ lit "c\$d\`e".
Proof. reflexivity. Qed.

(** ** Words of a rendered command line *)



(** ** The builder and the handler: claims of the specification *)

(** C2. The claim fails where a request's model is shell text.  The handler
    accepts the request, and the command line it runs carries the model as
    it was given, not as the sanitizer would have written it: the prompt and
    the directories go through the sanitizer, the model, approval mode and
    output format do not, and nothing checks that they are members of their
    enumerations. *)
Theorem handler_runs_shell_text_of_model
    (execSync : jsstring -> ExecOptions -> Completion jsstring)
    (processCwd : jsstring) :
  passesValidation shellModelRequest = true
  /\ inDomain GeminiModel (model shellModelRequest) = false
  /\ snd (handler execSync (Normal processCwd) (lit "gemini_execute")
            (Some shellModelRequest))
     = [(lit "gemini -p " ++ [dquote] ++ lit "hi" ++ [dquote]
           ++ lit " -m x; echo $HOME `id` --approval-mode yolo",
         optionsWith processCwd)]
  /\ sanitizeInput shellModel = lit "x; echo \$HOME \`id\`"
  /\ sanitizeInput shellModel <> shellModel.
Proof.
  split; [reflexivity|]. split; [reflexivity|]. split; [|split].
  - destruct (handler_after_validation execSync processCwd shellModelRequest eq_refl)
      as (command & E & H).
    rewrite H. vm_compute in E. injection E as <-.
    destruct (execSync _ (execOptions processCwd shellModelRequest)); reflexivity.
  - reflexivity.
  - intros H. vm_compute in H. discriminate H.
Qed.






(** C4. The claim fails for a valid request with a directory whose path has
    spaces in it.  The path is put on the command line without quotes, so
    its words become words of the command line: here there are two prompt
    flags and two approval-mode flags, and a model flag and a prompt flag
    stand after the include-directories flag. *)
Theorem directory_with_spaces_repeats_flags :
  validRequest flagsInDirectoryRequest = true
  /\ exists command,
      buildCommand flagsInDirectoryRequest = Normal command
      /\ command
         = lit "gemini -p " ++ [dquote] ++ lit "say \$HI" ++ [dquote]
           ++ lit " -m gemini-3-pro-preview --approval-mode yolo"
           ++ lit " --include-directories x --approval-mode default -m gpt-4 -p evil"
      /\ shellWords command
         = [lit "gemini"; lit "-p"; lit "say $HI"; lit "-m"; lit "gemini-3-pro-preview";
            lit "--approval-mode"; lit "yolo"; lit "--include-directories"; lit "x";
            lit "--approval-mode"; lit "default"; lit "-m"; lit "gpt-4";
            lit "-p"; lit "evil"]
      /\ countWord (lit "-p") (shellWords command) = 2%nat
      /\ countWord (lit "--approval-mode") (shellWords command) = 2%nat.
Proof.
  split; [reflexivity|]. eexists. split; [reflexivity|].
  repeat split; vm_compute; reflexivity.
Qed.

(** C5. The claim fails for a valid request with a directory whose path has
    spaces in it.  The request sets neither the output format nor the
    sandbox nor the debug option, and yet the command line has the three
    flags, and the word after the include-directories flag is only a part
    of the joined paths. *)
Theorem directory_with_spaces_adds_options :
  validRequest optionsInDirectoryRequest = true
  /\ outputFormat optionsInDirectoryRequest = None
  /\ sandbox optionsInDirectoryRequest = None
  /\ debug optionsInDirectoryRequest = None
  /\ exists command,
      buildCommand optionsInDirectoryRequest = Normal command
      /\ command
         = lit "gemini -p " ++ [dquote] ++ lit "hi" ++ [dquote]
           ++ lit " -m gemini-3-pro-preview --approval-mode yolo"
           ++ lit " --include-directories a\$b,x --output-format json -s -d"
      /\ shellWords command
         = [lit "gemini"; lit "-p"; lit "hi"; lit "-m"; lit "gemini-3-pro-preview";
            lit "--approval-mode"; lit "yolo"; lit "--include-directories";
            lit "a$b,x"; lit "--output-format"; lit "json"; lit "-s"; lit "-d"].
Proof.
  split; [reflexivity|]. repeat (split; [reflexivity|]).
  eexists. split; [reflexivity|].
  split; vm_compute; reflexivity.
Qed.

(** C10. The claim fails for a valid request with a directory whose path
    has spaces in it: the command line then has the model flag of the
    builder and a second one that comes from the path. *)
Theorem directory_with_spaces_adds_model_flag :
  validRequest modelInDirectoryRequest = true
  /\ model modelInDirectoryRequest = None
  /\ exists command,
      buildCommand modelInDirectoryRequest = Normal command
      /\ command
         = lit "gemini -p " ++ [dquote] ++ lit "hi" ++ [dquote]
           ++ lit " -m gemini-3-pro-preview --approval-mode yolo"
           ++ lit " --include-directories x -m gpt-4"
      /\ shellWords command
         = [lit "gemini"; lit "-p"; lit "hi"; lit "-m"; lit "gemini-3-pro-preview";
            lit "--approval-mode"; lit "yolo"; lit "--include-directories"; lit "x";
            lit "-m"; lit "gpt-4"]
      /\ countWord (lit "-m") (shellWords command) = 2%nat.
Proof.
  split; [reflexivity|]. split; [reflexivity|].
  eexists. split; [reflexivity|].
  repeat split; vm_compute; reflexivity.
Qed.

(** C6. With an argument object, the claim holds: a prompt that is absent,
    empty or made of white space only is refused with the error "prompt is
    required", whatever the other properties are, and no child process is
    started.  It fails for a call that has no argument object at all: the
    prompt is absent then too, but what the handler throws is the
    [TypeError] of reading a property off nothing. *)
Theorem handler_missing_prompt_or_arguments
    (execSync : jsstring -> ExecOptions -> Completion jsstring)
    (processCwd : Completion jsstring) :
  (forall p : GeminiExecuteParams,
      (prompt p = None
       \/ prompt p = Some []
       \/ exists s, prompt p = Some s /\ isBlank s = true) ->
      handler execSync processCwd (lit "gemini_execute") (Some p)
      = (Throw (Error (lit "prompt is required")), []))
  /\ handler execSync processCwd (lit "gemini_execute") None
     = (Throw (Error (lit "Cannot read properties of undefined (reading 'prompt')")),
        [])
  /\ Error (lit "Cannot read properties of undefined (reading 'prompt')")
     <> Error (lit "prompt is required").
Proof.
  split; [|split].
  - intros p H. unfold handler.
    replace (JS.eqb (lit "gemini_execute") (lit "gemini_execute")) with true
      by reflexivity.
    cbn [negb].
    destruct H as [->|[->|(s & -> & B)]]; try reflexivity.
    rewrite truthy_trim, B. reflexivity.
  - reflexivity.
  - intros H. vm_compute in H. discriminate H.
Qed.

Lemma handler_missing_prompt_or_arguments_witness :
  (prompt blankPromptRequest = None
   \/ prompt blankPromptRequest = Some []
   \/ exists s, prompt blankPromptRequest = Some s /\ isBlank s = true)
  /\ handler (fun _ _ => Normal (lit "unused")) (Normal (lit "/srv"))
       (lit "gemini_execute") (Some blankPromptRequest)
     = (Throw (Error (lit "prompt is required")), []).
Proof.
  assert (H : prompt blankPromptRequest = None
              \/ prompt blankPromptRequest = Some []
              \/ exists s, prompt blankPromptRequest = Some s /\ isBlank s = true).
  { right. right. exists [32; 9; 10]. split; reflexivity. }
  split.
  - exact H.
  - exact (proj1 (handler_missing_prompt_or_arguments (fun _ _ => Normal (lit "unused"))
                    (Normal (lit "/srv")))
             blankPromptRequest H).
Defined.

(** C7. With a prompt that is not blank, a request with six or more
    include-directories is refused with the error "max 5 directories allowed"
    and starts no child process; with five or fewer the check lets it through:
    the command is built and run. *)
Theorem handler_directory_limit
    (execSync : jsstring -> ExecOptions -> Completion jsstring)
    (processCwd : jsstring) (p : GeminiExecuteParams) (s : jsstring)
    (ds : list jsstring) :
  prompt p = Some s -> isBlank s = false -> includeDirectories p = Some ds ->
  ((6 <= List.length ds)%nat ->
     handler execSync (Normal processCwd) (lit "gemini_execute") (Some p)
     = (Throw (Error (lit "max 5 directories allowed")), []))
  /\ ((List.length ds <= 5)%nat ->
      exists command result,
        buildCommand p = Normal command
        /\ handler execSync (Normal processCwd) (lit "gemini_execute") (Some p)
           = (Normal result, [(command, execOptions processCwd p)])).
Proof.
  intros Hs Bs Hd. split; intros L.
  - unfold handler.
    replace (JS.eqb (lit "gemini_execute") (lit "gemini_execute")) with true by reflexivity.
    cbn [negb]. rewrite Hs, truthy_trim, Bs, Hd. cbn [negb].
    destruct (Nat.ltb_spec 5 (List.length ds)) as [L'|L']; [reflexivity|lia].
  - assert (V : passesValidation p = true).
    { unfold passesValidation. rewrite Hs, Bs, Hd. cbn. now apply Nat.leb_le. }
    destruct (handler_after_validation execSync processCwd p V) as (command & E & H).
    exists command.
    destruct (execSync command (execOptions processCwd p)) as [result|e].
    + exists (onSuccess result). split; assumption.
    + exists (onError e). split; assumption.
Qed.

Lemma handler_directory_limit_witness :
  (prompt sixDirectoriesRequest = Some (lit "count files")
   /\ isBlank (lit "count files") = false
   /\ (6 <= List.length [lit "a"; lit "b"; lit "c"; lit "d"; lit "e"; lit "f"])%nat
   /\ handler (fun _ _ => Normal (lit "unused")) (Normal (lit "/srv"))
        (lit "gemini_execute") (Some sixDirectoriesRequest)
      = (Throw (Error (lit "max 5 directories allowed")), []))
  /\ (prompt sampleRequest = Some (lit "list $HOME")
      /\ isBlank (lit "list $HOME") = false
      /\ (List.length [lit "src"; lit "docs"] <= 5)%nat
      /\ exists command result,
          buildCommand sampleRequest = Normal command
          /\ handler (fun _ _ => Normal (lit "two files")) (Normal (lit "/srv"))
               (lit "gemini_execute") (Some sampleRequest)
             = (Normal result, [(command, execOptions (lit "/srv") sampleRequest)])).
Proof.
  split.
  - split; [reflexivity|]. split; [reflexivity|]. split; [cbn; lia|].
    apply (proj1 (handler_directory_limit (fun _ _ => Normal (lit "unused")) (lit "/srv")
                    sixDirectoriesRequest (lit "count files")
                    [lit "a"; lit "b"; lit "c"; lit "d"; lit "e"; lit "f"]
                    eq_refl eq_refl eq_refl)).
    cbn. lia.
  - split; [reflexivity|]. split; [reflexivity|]. split; [cbn; lia|].
    apply (proj2 (handler_directory_limit (fun _ _ => Normal (lit "two files")) (lit "/srv")
                    sampleRequest (lit "list $HOME") [lit "src"; lit "docs"]
                    eq_refl eq_refl eq_refl)).
    cbn. lia.
Defined.

(** C8, as stated, fails: the text of a successful result is not the standard
    output with only its trailing white space removed.  On the example output
    the handler answers [done], while removing trailing white space alone
    leaves the two leading spaces in place. *)
Lemma handler_success_not_trimEnd :
  handler (fun _ _ => Normal doneStdout) (Normal (lit "/srv")) (lit "gemini_execute")
    (Some sampleRequest)
  = (Normal {| content := [{| type := lit "text"; text := lit "done" |}];
               isError := None |},
     [(lit "gemini -p " ++ [dquote] ++ lit "list \$HOME" ++ [dquote]
         ++ lit " -m gemini-3-pro-preview --approval-mode yolo"
         ++ lit " --output-format json -s --include-directories src,docs",
       {| encoding := lit "utf-8"; maxBuffer := 10485760;
          stdio := [lit "pipe"; lit "pipe"; lit "pipe"];
          timeout := 600000; cwd := lit "/srv" |})])
  /\ trimEnd doneStdout = lit "  done"
  /\ lit "done" <> trimEnd doneStdout.
Proof.
  split; [reflexivity|]. split; [reflexivity|]. discriminate.
Qed.

(** C8, amended. When the child process returns, the handler answers with a
    result that is not flagged as an error and has one item of type "text",
    whose text is the standard output with the white space at both ends
    removed, or the placeholder "Done (no output)" when nothing is left; the
    text is never empty. *)
Theorem handler_success_text
    (execSync : jsstring -> ExecOptions -> Completion jsstring)
    (processCwd : jsstring) (p : GeminiExecuteParams)
    (command stdout : jsstring) :
  passesValidation p = true ->
  buildCommand p = Normal command ->
  execSync command (execOptions processCwd p) = Normal stdout ->
  exists l t r txt,
    stdout = l ++ t ++ r
    /\ isBlank l = true /\ isBlank r = true
    /\ (forall c, hd_error t = Some c -> isWhiteSpace c = false)
    /\ (forall c, hd_error (rev t) = Some c -> isWhiteSpace c = false)
    /\ txt = match t with [] => lit "Done (no output)" | _ :: _ => t end
    /\ txt <> []
    /\ handler execSync (Normal processCwd) (lit "gemini_execute") (Some p)
       = (Normal {| content := [{| type := lit "text"; text := txt |}];
                    isError := None |},
          [(command, execOptions processCwd p)]).
Proof.
  intros V E X.
  destruct (handler_after_validation execSync processCwd p V) as (command' & E' & H).
  rewrite E in E'. injection E' as <-. rewrite X in H.
  destruct (trim_spec stdout) as (l & r & S & Bl & Br & Hh & Hl).
  exists l, (trim stdout), r. eexists.
  split; [exact S|]. split; [exact Bl|]. split; [exact Br|].
  split; [exact Hh|]. split; [exact Hl|]. split; [reflexivity|].
  split.
  - destruct (trim stdout); discriminate.
  - rewrite H. unfold onSuccess, createTextContent. destruct (trim stdout); reflexivity.
Qed.

Lemma handler_success_text_witness :
  passesValidation sampleRequest = true
  /\ exists command,
      buildCommand sampleRequest = Normal command
      /\ exists l t r txt,
          doneStdout = l ++ t ++ r
          /\ isBlank l = true /\ isBlank r = true
          /\ (forall c, hd_error t = Some c -> isWhiteSpace c = false)
          /\ (forall c, hd_error (rev t) = Some c -> isWhiteSpace c = false)
          /\ txt = match t with [] => lit "Done (no output)" | _ :: _ => t end
          /\ txt <> []
          /\ handler (fun _ _ => Normal doneStdout) (Normal (lit "/srv"))
               (lit "gemini_execute") (Some sampleRequest)
             = (Normal {| content := [{| type := lit "text"; text := txt |}];
                          isError := None |},
                [(command, execOptions (lit "/srv") sampleRequest)]).
Proof.
  split; [reflexivity|].
  eexists. split; [reflexivity|].
  exact (handler_success_text (fun _ _ => Normal doneStdout) (lit "/srv") sampleRequest
           _ doneStdout eq_refl eq_refl eq_refl).
Defined.

(** The two examples of the specification. *)
Example handler_done_example :
  fst (handler (fun _ _ => Normal doneStdout) (Normal (lit "/srv")) (lit "gemini_execute")
         (Some sampleRequest))
  = Normal {| content := [{| type := lit "text"; text := lit "done" |}];
              isError := None |}.
Proof. reflexivity. Qed.

Example handler_no_output_example :
  fst (handler (fun _ _ => Normal []) (Normal (lit "/srv")) (lit "gemini_execute")
         (Some sampleRequest))
  = Normal {| content := [{| type := lit "text"; text := lit "Done (no output)" |}];
              isError := None |}.
Proof. reflexivity. Qed.

(** C9, as stated, fails: a message can contain both indicators, and the
    sign-in hint is then not attached.  On an error text with "command not
    found" and "auth" in it the handler attaches the installation hint
    alone. *)
Lemma handler_both_indicators_one_hint :
  includes (lit "sh: 1: gemini: command not found (auth expired?)") (lit "auth") = true
  /\ handler (fun _ _ => Throw bothIndicatorsError) (Normal (lit "/srv"))
       (lit "gemini_execute") (Some sampleRequest)
     = (Normal {| content :=
                    [{| type := lit "text";
                        text := lit "Error: sh: 1: gemini: command not found (auth expired?)"
                                ++ [10; 10]
                                ++ lit "Install Gemini CLI: npm install -g @google/gemini-cli"
                     |}];
                  isError := Some true |},
        [(lit "gemini -p " ++ [dquote] ++ lit "list \$HOME" ++ [dquote]
            ++ lit " -m gemini-3-pro-preview --approval-mode yolo"
            ++ lit " --output-format json -s --include-directories src,docs",
          optionsWith (lit "/srv"))])
  /\ includes (lit "Error: sh: 1: gemini: command not found (auth expired?)"
               ++ [10; 10]
               ++ lit "Install Gemini CLI: npm install -g @google/gemini-cli")
       (lit "Try: gemini auth login") = false.
Proof. split; [reflexivity|]. split; reflexivity. Qed.

(** C9, amended. When [execSync] throws, the handler does not: it answers
    with a result flagged as an error, with one item of type "text" whose
    text is "Error: ", the message and a hint.  The message is the captured
    standard error when there is some, else the message of the error, else
    "Unknown error".  The hint is the installation hint when the message
    contains "command not found"; the sign-in hint when the message contains
    "auth" and not "command not found"; and empty when it contains
    neither. *)
Theorem handler_execution_failure
    (execSync : jsstring -> ExecOptions -> Completion jsstring)
    (processCwd : jsstring) (p : GeminiExecuteParams)
    (command : jsstring) (e : JsError) :
  passesValidation p = true ->
  buildCommand p = Normal command ->
  execSync command (execOptions processCwd p) = Throw e ->
  exists msg hint,
    handler execSync (Normal processCwd) (lit "gemini_execute") (Some p)
    = (Normal {| content := [{| type := lit "text";
                                text := lit "Error: " ++ msg ++ hint |}];
                 isError := Some true |},
       [(command, execOptions processCwd p)])
    /\ (forall s, stderr e = Some s -> s <> [] -> msg = s)
    /\ (stderr e = None \/ stderr e = Some [] ->
        forall s, message e = Some s -> s <> [] -> msg = s)
    /\ (stderr e = None \/ stderr e = Some [] ->
        message e = None \/ message e = Some [] ->
        msg = lit "Unknown error")
    /\ ((exists a b, msg = a ++ lit "command not found" ++ b) ->
        hint = [10; 10] ++ lit "Install Gemini CLI: npm install -g @google/gemini-cli")
    /\ (~ (exists a b, msg = a ++ lit "command not found" ++ b) ->
        (exists a b, msg = a ++ lit "auth" ++ b) ->
        hint = [10; 10] ++ lit "Try: gemini auth login")
    /\ (~ (exists a b, msg = a ++ lit "command not found" ++ b) ->
        ~ (exists a b, msg = a ++ lit "auth" ++ b) ->
        hint = []).
Proof.
  intros V E X.
  destruct (handler_after_validation execSync processCwd p V) as (command' & E' & H).
  rewrite E in E'. injection E' as <-. rewrite X in H.
  exists (orElse (stderr e) (orElse (message e) (lit "Unknown error"))).
  eexists. split; [exact H|].
  set (msg := orElse (stderr e) (orElse (message e) (lit "Unknown error"))).
  repeat split.
  - intros s Hs Hne. unfold msg. rewrite Hs. destruct s; [congruence|reflexivity].
  - intros Hs s Hm Hne. unfold msg.
    destruct Hs as [-> | ->]; rewrite Hm; destruct s; try congruence; reflexivity.
  - intros Hs Hm. unfold msg.
    destruct Hs as [-> | ->]; destruct Hm as [-> | ->]; reflexivity.
  - intros I. apply includes_spec in I. rewrite I. reflexivity.
  - intros N I. apply includes_spec in I.
    destruct (includes msg (lit "command not found")) eqn:C.
    + exfalso. apply N. now apply includes_spec.
    + rewrite I. reflexivity.
  - intros N1 N2.
    destruct (includes msg (lit "command not found")) eqn:C.
    + exfalso. apply N1. now apply includes_spec.
    + destruct (includes msg (lit "auth")) eqn:A; [|reflexivity].
      exfalso. apply N2. now apply includes_spec.
Qed.

Lemma handler_execution_failure_witness :
  passesValidation sampleRequest = true
  /\ exists command,
      buildCommand sampleRequest = Normal command
      /\ exists msg hint,
          handler (fun _ _ => Throw notFoundError) (Normal (lit "/srv"))
            (lit "gemini_execute") (Some sampleRequest)
          = (Normal {| content := [{| type := lit "text";
                                      text := lit "Error: " ++ msg ++ hint |}];
                       isError := Some true |},
             [(command, execOptions (lit "/srv") sampleRequest)])
          /\ (forall s, stderr notFoundError = Some s -> s <> [] -> msg = s)
          /\ (stderr notFoundError = None \/ stderr notFoundError = Some [] ->
              forall s, message notFoundError = Some s -> s <> [] -> msg = s)
          /\ (stderr notFoundError = None \/ stderr notFoundError = Some [] ->
              message notFoundError = None \/ message notFoundError = Some [] ->
              msg = lit "Unknown error")
          /\ ((exists a b, msg = a ++ lit "command not found" ++ b) ->
              hint = [10; 10]
                     ++ lit "Install Gemini CLI: npm install -g @google/gemini-cli")
          /\ (~ (exists a b, msg = a ++ lit "command not found" ++ b) ->
              (exists a b, msg = a ++ lit "auth" ++ b) ->
              hint = [10; 10] ++ lit "Try: gemini auth login")
          /\ (~ (exists a b, msg = a ++ lit "command not found" ++ b) ->
              ~ (exists a b, msg = a ++ lit "auth" ++ b) ->
              hint = []).
Proof.
  split; [reflexivity|].
  eexists. split; [reflexivity|].
  exact (handler_execution_failure (fun _ _ => Throw notFoundError) (lit "/srv")
           sampleRequest _ notFoundError eq_refl eq_refl eq_refl).
Defined.

Example handler_not_found_example :
  fst (handler (fun _ _ => Throw notFoundError) (Normal (lit "/srv"))
         (lit "gemini_execute") (Some sampleRequest))
  = Normal {| content :=
                [{| type := lit "text";
                    text := lit "Error: /bin/sh: 1: gemini: command not found"
                            ++ [10; 10]
                            ++ lit "Install Gemini CLI: npm install -g @google/gemini-cli"
                 |}];
              isError := Some true |}.
Proof. reflexivity. Qed.

(** ** Further properties of the sanitizer *)

(** X1. The sanitizer works character by character: sanitizing a
    concatenation is concatenating the sanitized pieces. *)
Theorem sanitizeInput_app (a b : jsstring) :
  sanitizeInput (a ++ b) = sanitizeInput a ++ sanitizeInput b.
Proof.
  rewrite !sanitizeInput_escapeUnit. apply flat_map_app.
Qed.

Lemma escapeUnit_length (c : codeUnit) :
  List.length (escapeUnit c) = if isSpecial c then 2%nat else 1%nat.
Proof. unfold escapeUnit. destruct (isSpecial c); reflexivity. Qed.

(** X2. The output is longer than the input by one character for each
    backslash, double quote, dollar sign and backtick of the input; it is
    never shorter, and at most twice as long. *)
Theorem sanitizeInput_length (s : jsstring) :
  List.length (sanitizeInput s)
  = (List.length s + List.length (filter isSpecial s))%nat
  /\ (List.length s <= List.length (sanitizeInput s) <= 2 * List.length s)%nat.
Proof.
  assert (L : List.length (sanitizeInput s)
              = (List.length s + List.length (filter isSpecial s))%nat).
  { rewrite sanitizeInput_escapeUnit.
    induction s as [|c s IH]; [reflexivity|].
    cbn [flat_map filter]. rewrite length_app, escapeUnit_length, IH.
    destruct (isSpecial c); cbn [List.length]; lia. }
  split; [exact L|].
  pose proof (filter_length_le isSpecial s). lia.
Qed.

Lemma filter_nil_existsb (f : codeUnit -> bool) (s : jsstring) :
  List.length (filter f s) = 0%nat <-> existsb f s = false.
Proof.
  induction s as [|c s IH]; cbn; [tauto|].
  destruct (f c); cbn; [split; discriminate|exact IH].
Qed.

(** X3. The sanitizer leaves a string as it is exactly when the string has
    none of the four characters. *)
Theorem sanitizeInput_unchanged_iff (s : jsstring) :
  sanitizeInput s = s <-> existsb isSpecial s = false.
Proof.
  rewrite <- filter_nil_existsb. split.
  - intros E. pose proof (proj1 (sanitizeInput_length s)) as L.
    rewrite E in L. lia.
  - intros Z. apply filter_nil_existsb in Z.
    rewrite sanitizeInput_escapeUnit.
    induction s as [|c s IH]; [reflexivity|].
    cbn in Z. apply orb_false_iff in Z. destruct Z as [Zc Zs].
    cbn [flat_map]. unfold escapeUnit at 1. rewrite Zc, (IH Zs). reflexivity.
Qed.

Lemma existsb_isSpecial_sanitizeInput (s : jsstring) :
  existsb isSpecial (sanitizeInput s) = existsb isSpecial s.
Proof.
  rewrite sanitizeInput_escapeUnit.
  induction s as [|c s IH]; [reflexivity|].
  cbn [flat_map]. rewrite existsb_app, IH. cbn [existsb].
  unfold escapeUnit. destruct (isSpecial c) eqn:Hc; cbn [existsb].
  - reflexivity.
  - rewrite Hc. reflexivity.
Qed.

(** X4. Sanitizing twice is not harmless: the second pass changes the text
    again unless the original has none of the four characters. *)
Theorem sanitizeInput_twice_iff (s : jsstring) :
  sanitizeInput (sanitizeInput s) = sanitizeInput s <-> existsb isSpecial s = false.
Proof.
  rewrite sanitizeInput_unchanged_iff. rewrite existsb_isSpecial_sanitizeInput. tauto.
Qed.

Lemma bareSpecial_escaped (s rest : jsstring) :
  bareSpecial (flat_map escapeUnit s ++ rest) = bareSpecial rest.
Proof.
  induction s as [|c s IH]; [reflexivity|].
  cbn [flat_map]. unfold escapeUnit at 1.
  destruct (isSpecial c) eqn:Hc.
  - cbn [app bareSpecial]. rewrite N.eqb_refl. exact IH.
  - cbn [app bareSpecial].
    rewrite (isSpecial_backslash_false c Hc), Hc. exact IH.
Qed.

(** X5. In the sanitizer's output every double quote, dollar sign and
    backtick is escaped and no backslash is left dangling, and text that
    follows the output is scanned as if it stood alone: in particular the
    quote that closes the prompt is the first bare special character of
    what follows the opening quote. *)
Theorem sanitizeInput_no_bare_special (s rest : jsstring) :
  bareSpecial (sanitizeInput s) = false
  /\ bareSpecial (sanitizeInput s ++ rest) = bareSpecial rest
  /\ bareSpecial (sanitizeInput s ++ dquote :: rest) = true.
Proof.
  rewrite sanitizeInput_escapeUnit. split; [|split].
  - rewrite <- (app_nil_r (flat_map escapeUnit s)). apply bareSpecial_escaped.
  - apply bareSpecial_escaped.
  - rewrite bareSpecial_escaped. reflexivity.
Qed.

(** ** Further properties of the builder and the handler *)

Lemma orDefault_None {A : Type} (x : option A) : orDefault x None = x.
Proof. destruct x; reflexivity. Qed.

Lemma withDefault_orDefault {A : Type} (x : option A) (d : A) :
  withDefault (orDefault x (Some d)) d = withDefault x d.
Proof. destruct x; reflexivity. Qed.

(** X6. The defaults the tool schema declares are the defaults the builder
    applies: a request in which a client has filled in the declared defaults
    gives the same command line, and the same handler outcome, as the request
    that leaves them out. *)
Theorem schema_defaults_change_nothing
    (execSync : jsstring -> ExecOptions -> Completion jsstring)
    (processCwd : Completion jsstring) (name : jsstring) (p : GeminiExecuteParams) :
  buildCommand (fillDefaults schemaDefaults p) = buildCommand p
  /\ handler execSync processCwd name (Some (fillDefaults schemaDefaults p))
     = handler execSync processCwd name (Some p).
Proof.
  assert (B : buildCommand (fillDefaults schemaDefaults p) = buildCommand p).
  { unfold buildCommand, buildParts.
    cbn [fillDefaults schemaDefaults prompt model approvalMode outputFormat sandbox
         workingDirectory includeDirectories debug].
    rewrite !orDefault_None, !withDefault_orDefault. reflexivity. }
  split; [exact B|].
  unfold handler. rewrite B. unfold workingDirectoryOrCwd.
  cbn [fillDefaults schemaDefaults prompt workingDirectory includeDirectories].
  rewrite !orDefault_None. reflexivity.
Qed.

(** X7. The working directory is never part of the command line: it only
    selects the directory the child process runs in, which is the request's
    [workingDirectory] when that is present and not empty, and the server's
    own current directory otherwise. *)
Theorem workingDirectory_only_selects_cwd
    (execSync : jsstring -> ExecOptions -> Completion jsstring)
    (processCwd : jsstring) (p : GeminiExecuteParams) :
  passesValidation p = true ->
  (forall w, buildCommand (setWorkingDirectory w p) = buildCommand p)
  /\ map (fun sp => cwd (snd sp))
         (snd (handler execSync (Normal processCwd) (lit "gemini_execute") (Some p)))
     = [match workingDirectory p with
        | Some (c :: w) => c :: w
        | _ => processCwd
        end].
Proof.
  intros V. split; [reflexivity|].
  destruct (handler_after_validation execSync processCwd p V) as (command & _ & H).
  rewrite H.
  destruct (execSync command (execOptions processCwd p));
    cbn [snd map cwd execOptions optionsWith orElse];
    destruct (workingDirectory p) as [[|c w]|]; reflexivity.
Qed.

Lemma workingDirectory_only_selects_cwd_witness :
  passesValidation (setWorkingDirectory (Some []) sampleRequest) = true
  /\ (forall w, buildCommand (setWorkingDirectory w (setWorkingDirectory (Some []) sampleRequest))
                = buildCommand (setWorkingDirectory (Some []) sampleRequest))
  /\ map (fun sp => cwd (snd sp))
         (snd (handler (fun _ _ => Normal (lit "ok")) (Normal (lit "/srv"))
                 (lit "gemini_execute")
                 (Some (setWorkingDirectory (Some []) sampleRequest))))
     = [lit "/srv"].
Proof.
  split; [reflexivity|].
  exact (workingDirectory_only_selects_cwd (fun _ _ => Normal (lit "ok")) (lit "/srv")
           (setWorkingDirectory (Some []) sampleRequest) eq_refl).
Defined.

(** X8. A call that names any tool other than [gemini_execute] is refused
    with "Unknown tool: " followed by the name, before the arguments are
    looked at and without starting a child process. *)
Theorem handler_unknown_tool
    (execSync : jsstring -> ExecOptions -> Completion jsstring)
    (processCwd : Completion jsstring) (name : jsstring)
    (arguments : option GeminiExecuteParams) :
  name <> lit "gemini_execute" ->
  handler execSync processCwd name arguments
  = (Throw (Error (lit "Unknown tool: " ++ name)), []).
Proof.
  intros N. unfold handler.
  destruct (JS.eqb name (lit "gemini_execute")) eqn:E; [|reflexivity].
  apply jsstring_eqb_eq in E. contradiction.
Qed.

Lemma handler_unknown_tool_witness :
  lit "gemini_run" <> lit "gemini_execute"
  /\ handler (fun _ _ => Normal (lit "unused")) (Normal (lit "/srv")) (lit "gemini_run")
       (Some sampleRequest)
     = (Throw (Error (lit "Unknown tool: " ++ lit "gemini_run")), []).
Proof.
  assert (N : lit "gemini_run" <> lit "gemini_execute") by discriminate.
  split; [exact N|].
  exact (handler_unknown_tool (fun _ _ => Normal (lit "unused")) (Normal (lit "/srv"))
           (lit "gemini_run") (Some sampleRequest) N).
Defined.

Lemma onSuccess_text (result : jsstring) :
  exists t,
    onSuccess result
    = {| content := [{| type := lit "text"; text := t |}]; isError := None |}
    /\ t <> [].
Proof.
  unfold onSuccess, createTextContent. eexists. split; [reflexivity|].
  destruct (truthy (trim result)) eqn:T.
  - destruct (trim result); [discriminate T|discriminate].
  - discriminate.
Qed.

Lemma onError_text (e : JsError) :
  exists t,
    onError e
    = {| content := [{| type := lit "text"; text := t |}]; isError := Some true |}
    /\ t <> [].
Proof.
  unfold onError, createTextContent. eexists. split; [reflexivity|]. discriminate.
Qed.

(** X9. For every call whose arguments, when there are any, have the
    declared types, and whatever the child process and [process.cwd()] do,
    the handler ends in one of three ways.  It throws one of its four errors
    (unknown tool, no arguments, missing prompt, too many directories) and
    has started no child process.  Or it returns a result with exactly one
    item, of type "text" and not empty, and has started exactly one child
    process, on the built command line, with a time limit of 600000 ms and
    an output limit of 10485760 bytes.  Or, when the request names no
    directory and [process.cwd()] throws, it returns such a result flagged
    as an error and has started no child process. *)
Theorem handler_outcomes
    (execSync : jsstring -> ExecOptions -> Completion jsstring)
    (processCwd : Completion jsstring) (name : jsstring)
    (arguments : option GeminiExecuteParams) :
  (exists e,
      handler execSync processCwd name arguments = (Throw e, [])
      /\ In e (handlerErrors name))
  \/ (exists p command t flag,
        name = lit "gemini_execute"
        /\ arguments = Some p
        /\ passesValidation p = true
        /\ buildCommand p = Normal command
        /\ t <> []
        /\ ((exists dir,
                workingDirectoryOrCwd processCwd p = Normal dir
                /\ handler execSync processCwd name arguments
                   = (Normal {| content := [{| type := lit "text"; text := t |}];
                                isError := flag |},
                      [(command,
                        {| encoding := lit "utf-8"; maxBuffer := 10485760;
                           stdio := [lit "pipe"; lit "pipe"; lit "pipe"];
                           timeout := 600000; cwd := dir |})]))
            \/ (exists e,
                   workingDirectoryOrCwd processCwd p = Throw e
                   /\ flag = Some true
                   /\ handler execSync processCwd name arguments
                      = (Normal {| content := [{| type := lit "text"; text := t |}];
                                   isError := flag |},
                         [])))).
Proof.
  destruct (JS.eqb name (lit "gemini_execute")) eqn:En.
  - apply jsstring_eqb_eq in En. subst name.
    destruct arguments as [p|].
    + destruct (passesValidation p) eqn:V.
      * right.
        destruct (handler_validated execSync processCwd p V) as (command & E & H).
        destruct (workingDirectoryOrCwd processCwd p) as [dir|e] eqn:W.
        -- destruct (execSync command (optionsWith dir)) as [out|e].
           ++ destruct (onSuccess_text out) as (t & Ct & Nt).
              exists p, command, t, None. repeat (split; [reflexivity || assumption|]).
              left. exists dir. split; [exact W|]. rewrite H, Ct. reflexivity.
           ++ destruct (onError_text e) as (t & Ct & Nt).
              exists p, command, t, (Some true).
              repeat (split; [reflexivity || assumption|]).
              left. exists dir. split; [exact W|]. rewrite H, Ct. reflexivity.
        -- destruct (onError_text e) as (t & Ct & Nt).
           exists p, command, t, (Some true).
           repeat (split; [reflexivity || assumption|]).
           right. exists e. split; [exact W|]. split; [reflexivity|].
           rewrite H, Ct. reflexivity.
      * left. unfold handler.
        replace (JS.eqb (lit "gemini_execute") (lit "gemini_execute")) with true
          by reflexivity.
        cbn [negb]. unfold passesValidation in V.
        destruct (prompt p) as [s|].
        -- rewrite truthy_trim. destruct (isBlank s); cbn [negb].
           ++ eexists. split; [reflexivity|]. cbn. tauto.
           ++ cbn [negb andb] in V. destruct (includeDirectories p) as [ds|];
                [|discriminate V].
              apply Nat.leb_gt in V.
              destruct (Nat.ltb_spec 5 (List.length ds)) as [L|L]; [|lia].
              eexists. split; [reflexivity|]. cbn. tauto.
        -- eexists. split; [reflexivity|]. cbn. tauto.
    + left. eexists. split; [reflexivity|]. cbn. tauto.
  - left. unfold handler. rewrite En. cbn [negb].
    eexists. split; [reflexivity|]. cbn. tauto.
Qed.

(** X10. A model that is present but empty is not replaced by the default:
    the builder then writes no model flag, and the quoted prompt is followed
    at once by the approval-mode flag, where the same request without the
    model property has "-m gemini-3-pro-preview" in between. *)
Theorem buildCommand_empty_model (p : GeminiExecuteParams) (s : jsstring) :
  prompt p = Some s ->
  model p = Some [] ->
  exists rest,
    buildCommand p
    = Normal (lit "gemini -p " ++ [dquote] ++ sanitizeInput s ++ [dquote]
              ++ lit " --approval-mode " ++ rest)
    /\ buildCommand (setModel None p)
       = Normal (lit "gemini -p " ++ [dquote] ++ sanitizeInput s ++ [dquote]
                 ++ lit " -m gemini-3-pro-preview --approval-mode " ++ rest).
Proof.
  intros Hs Hm.
  rewrite (buildCommand_rendered p s Hs).
  rewrite (buildCommand_rendered (setModel None p) s Hs).
  cbn [setModel model approvalMode outputFormat sandbox includeDirectories debug].
  rewrite Hm. cbn [withDefault truthy optionalText].
  replace (truthy (lit "gemini-3-pro-preview")) with true by reflexivity.
  cbn [optionalText]. unfold promptToken.
  eexists. split; rewrite <- ?app_assoc; reflexivity.
Qed.

Lemma buildCommand_empty_model_witness :
  prompt (setModel (Some []) sampleRequest) = Some (lit "list $HOME")
  /\ model (setModel (Some []) sampleRequest) = Some []
  /\ exists rest,
      buildCommand (setModel (Some []) sampleRequest)
      = Normal (lit "gemini -p " ++ [dquote] ++ sanitizeInput (lit "list $HOME")
                ++ [dquote] ++ lit " --approval-mode " ++ rest)
      /\ buildCommand (setModel None (setModel (Some []) sampleRequest))
         = Normal (lit "gemini -p " ++ [dquote] ++ sanitizeInput (lit "list $HOME")
                   ++ [dquote] ++ lit " -m gemini-3-pro-preview --approval-mode " ++ rest).
Proof.
  split; [reflexivity|]. split; [reflexivity|].
  exact (buildCommand_empty_model (setModel (Some []) sampleRequest) (lit "list $HOME")
           eq_refl eq_refl).
Defined.

(** X11. Directory paths are joined by commas without being quoted, so a
    comma inside a path cannot be told from the separator: two directories
    [a] and [b] and the single directory [a,b] give the same command line. *)
Theorem buildCommand_comma_in_directory (p : GeminiExecuteParams) (a b : jsstring) :
  [a; b] <> [a ++ lit "," ++ b]
  /\ buildCommand (setIncludeDirectories (Some [a; b]) p)
     = buildCommand (setIncludeDirectories (Some [a ++ lit "," ++ b]) p).
Proof.
  split; [discriminate|].
  unfold buildCommand, buildParts.
  cbn [setIncludeDirectories prompt model approvalMode outputFormat sandbox
       includeDirectories debug map join].
  rewrite !sanitizeInput_app.
  replace (sanitizeInput (lit ",")) with (lit ",") by reflexivity.
  reflexivity.
Qed.



(** ** The setup verification *)

Section VerifySetupFacts.

Import VerifySetup.

Variable execSync : jsstring -> Completion jsstring.

Lemma ran_fold (cs : list CheckConfig) (st : RunState) :
  ran (fold_left (runCheck execSync) cs st) = ran st ++ map command cs.
Proof.
  revert st. induction cs as [|c cs IH]; intros st; cbn [fold_left map].
  - symmetry. apply app_nil_r.
  - rewrite IH. unfold runCheck.
    destruct (runCommand execSync (command c)) as [o|e];
      [destruct (includes (validate c o) [failMark])|];
      cbn [ran]; rewrite <- app_assoc; reflexivity.
Qed.

Lemma allPassed_fold (cs : list CheckConfig) (st : RunState) :
  allPassed (fold_left (runCheck execSync) cs st)
  = allPassed st && forallb (checkPasses execSync) cs.
Proof.
  revert st. induction cs as [|c cs IH]; intros st; cbn [fold_left forallb].
  - symmetry. apply andb_true_r.
  - rewrite IH. unfold runCheck, checkPasses.
    destruct (runCommand execSync (command c)) as [o|e];
      [destruct (includes (validate c o) [failMark])|];
      cbn [allPassed negb andb]; rewrite ?andb_false_r; reflexivity.
Qed.

End VerifySetupFacts.

Lemma includes_single (s : jsstring) (c : codeUnit) :
  includes s [c] = existsb (fun x => c =? x) s.
Proof.
  induction s as [|x s IH]; [reflexivity|].
  cbn [includes startsWith existsb]. rewrite IH.
  destruct s; cbn; rewrite ?andb_true_r; reflexivity.
Qed.

Lemma validateNode_passes (o : jsstring) :
  includes (VerifySetup.validateNode o) [VerifySetup.failMark] = false
  <-> (exists d, VerifySetup.matchVersion o = Some d
                 /\ 18 <= VerifySetup.parseInt10 d)
      /\ includes o [VerifySetup.failMark] = false.
Proof.
  unfold VerifySetup.validateNode. rewrite !includes_single.
  destruct (VerifySetup.matchVersion o) as [d|].
  - destruct (N.leb_spec 18 (VerifySetup.parseInt10 d)) as [L|L].
    + rewrite !existsb_app. cbn. rewrite orb_false_r. split.
      * intros H. split; [exists d; split; [reflexivity|exact L]|exact H].
      * intros [_ H]. exact H.
    + split; [discriminate|]. intros [(d' & E & L') _].
      injection E as <-. lia.
  - split; [discriminate|]. intros [(d' & E & _) _]. discriminate E.
Qed.

Lemma validateNpm_passes (o : jsstring) :
  includes (VerifySetup.validateNpm o) [VerifySetup.failMark]
  = includes o [VerifySetup.failMark].
Proof.
  unfold VerifySetup.validateNpm. rewrite !includes_single, !existsb_app.
  cbn. apply orb_false_r.
Qed.

Lemma validateGemini_passes (o : jsstring) :
  includes (VerifySetup.validateGemini o) [VerifySetup.failMark]
  = includes o [VerifySetup.failMark].
Proof.
  unfold VerifySetup.validateGemini. rewrite !includes_single, !existsb_app.
  cbn. apply orb_false_r.
Qed.

Lemma validateKey_passes (o : jsstring) :
  includes (VerifySetup.validateKey o) [VerifySetup.failMark] = false
  <-> (10 < List.length o)%nat.
Proof.
  unfold VerifySetup.validateKey.
  destruct (Nat.ltb_spec 10 (List.length o)) as [L|L].
  - destruct o as [|c o]; [cbn in L; lia|]. cbn [truthy andb]. split; [intros _; exact L|].
    intros _. reflexivity.
  - rewrite andb_false_r. split; [discriminate|lia].
Qed.

(** X12. The verification never stops early: whatever the commands do, it
    runs the same four probes, in the same order. *)
Theorem runChecks_runs_every_probe (execSync : jsstring -> Completion jsstring) :
  VerifySetup.ran (VerifySetup.runChecks execSync)
  = [lit "node --version"; lit "npm --version"; lit "gemini-cli --version";
     lit "gemini-cli config get apiKey"]
  /\ VerifySetup.ran (fst (VerifySetup.main execSync))
     = VerifySetup.ran (VerifySetup.runChecks execSync).
Proof.
  split; [|reflexivity].
  unfold VerifySetup.runChecks. cbn [VerifySetup.ran].
  rewrite ran_fold. reflexivity.
Qed.

(** X13. The verification exits with code 0 exactly when all four commands
    return and, on their trimmed outputs: the Node output has a [v] followed
    by digits, the first such number being at least 18; none of the three
    version outputs contains the failure mark; and the configured key is
    longer than 10 characters.  In every other case the exit code is 1. *)
Theorem verification_exit_code (execSync : jsstring -> Completion jsstring) :
  (snd (VerifySetup.main execSync) = 0 \/ snd (VerifySetup.main execSync) = 1)
  /\ (snd (VerifySetup.main execSync) = 0
      <-> exists node npm cli key,
            execSync (lit "node --version") = Normal node
            /\ execSync (lit "npm --version") = Normal npm
            /\ execSync (lit "gemini-cli --version") = Normal cli
            /\ execSync (lit "gemini-cli config get apiKey") = Normal key
            /\ (exists d, VerifySetup.matchVersion (trim node) = Some d
                          /\ 18 <= VerifySetup.parseInt10 d)
            /\ includes (trim node) [VerifySetup.failMark] = false
            /\ includes (trim npm) [VerifySetup.failMark] = false
            /\ includes (trim cli) [VerifySetup.failMark] = false
            /\ (10 < List.length (trim key))%nat).
Proof.
  unfold VerifySetup.main. cbn [snd].
  split; [destruct (VerifySetup.allPassed (VerifySetup.runChecks execSync)); auto|].
  assert (A : VerifySetup.allPassed (VerifySetup.runChecks execSync)
              = forallb (checkPasses execSync) VerifySetup.checks).
  { unfold VerifySetup.runChecks. cbn [VerifySetup.allPassed].
    rewrite allPassed_fold. reflexivity. }
  rewrite A. clear A.
  cbn [VerifySetup.checks forallb]. unfold checkPasses, VerifySetup.runCommand.
  cbn [VerifySetup.command VerifySetup.validate].
  split.
  - intros H.
    destruct (execSync (lit "node --version")) as [node|]; [|discriminate H].
    destruct (execSync (lit "npm --version")) as [npm|];
      [|rewrite ?andb_false_r in H; discriminate H].
    destruct (execSync (lit "gemini-cli --version")) as [cli|];
      [|rewrite ?andb_false_r in H; discriminate H].
    destruct (execSync (lit "gemini-cli config get apiKey")) as [key|];
      [|rewrite ?andb_false_r in H; discriminate H].
    destruct (includes (VerifySetup.validateNode (trim node)) [VerifySetup.failMark]) eqn:E1;
      [discriminate H|].
    destruct (includes (VerifySetup.validateNpm (trim npm)) [VerifySetup.failMark]) eqn:E2;
      [discriminate H|].
    destruct (includes (VerifySetup.validateGemini (trim cli)) [VerifySetup.failMark]) eqn:E3;
      [discriminate H|].
    destruct (includes (VerifySetup.validateKey (trim key)) [VerifySetup.failMark]) eqn:E4;
      [discriminate H|].
    apply validateNode_passes in E1. destruct E1 as [V1 F1].
    rewrite validateNpm_passes in E2. rewrite validateGemini_passes in E3.
    apply validateKey_passes in E4.
    exists node, npm, cli, key. repeat split; assumption.
  - intros (node & npm & cli & key & -> & -> & -> & -> & V1 & F1 & F2 & F3 & K).
    rewrite (proj2 (validateNode_passes (trim node)) (conj V1 F1)).
    rewrite validateNpm_passes, F2, validateGemini_passes, F3.
    rewrite (proj2 (validateKey_passes (trim key)) K). reflexivity.
Qed.

Lemma takeDigits_app (ds rest : jsstring) :
  forallb VerifySetup.isDigit ds = true ->
  (forall c t, rest = c :: t -> VerifySetup.isDigit c = false) ->
  VerifySetup.takeDigits (ds ++ rest) = ds.
Proof.
  intros D R. induction ds as [|d ds IH].
  - cbn. destruct rest as [|c t]; [reflexivity|].
    cbn. rewrite (R c t eq_refl). reflexivity.
  - cbn in D. apply andb_true_iff in D. destruct D as [Dd Ds].
    cbn. rewrite Dd, (IH Ds). reflexivity.
Qed.

Lemma matchVersion_no_v (o : jsstring) :
  existsb (fun c => c =? 118) o = false -> VerifySetup.matchVersion o = None.
Proof.
  induction o as [|c o IH]; [reflexivity|].
  cbn. intros H. apply orb_false_iff in H. destruct H as [-> H]. auto.
Qed.

(** X14. The Node check looks at the major version only.  When the output
    is some text without a [v], then [v], digits, and something that does
    not start with a digit, the check succeeds exactly when the number the
    digits spell is at least 18, and the whole output is echoed in the
    result.  An output with no [v] at all is reported as unparsable. *)
Theorem validateNode_major_version :
  (forall pre ds rest : jsstring,
      existsb (fun c => c =? 118) pre = false ->
      ds <> [] ->
      forallb VerifySetup.isDigit ds = true ->
      (forall c t, rest = c :: t -> VerifySetup.isDigit c = false) ->
      VerifySetup.matchVersion (pre ++ 118 :: ds ++ rest) = Some ds
      /\ VerifySetup.validateNode (pre ++ 118 :: ds ++ rest)
         = if 18 <=? decimalValue ds
           then [VerifySetup.okMark] ++ lit " OK (" ++ (pre ++ 118 :: ds ++ rest) ++ lit ")"
           else [VerifySetup.failMark] ++ lit " FAIL (" ++ (pre ++ 118 :: ds ++ rest)
                ++ lit ", need v18+)")
  /\ (forall o : jsstring,
        existsb (fun c => c =? 118) o = false ->
        VerifySetup.validateNode o
        = [VerifySetup.failMark] ++ lit " FAIL (cannot parse version)").
Proof.
  split.
  - intros pre ds rest P N D R.
    assert (M : VerifySetup.matchVersion (pre ++ 118 :: ds ++ rest) = Some ds).
    { induction pre as [|c pre IH].
      - cbn [app VerifySetup.matchVersion]. rewrite N.eqb_refl.
        rewrite (takeDigits_app ds rest D R).
        destruct ds; [congruence|reflexivity].
      - cbn in P. apply orb_false_iff in P. destruct P as [Pc P].
        cbn [app VerifySetup.matchVersion]. rewrite Pc. exact (IH P). }
    split; [exact M|].
    unfold VerifySetup.validateNode. rewrite M.
    unfold VerifySetup.parseInt10.
    rewrite <- (app_nil_r ds) at 1.
    rewrite (takeDigits_app ds [] D) by discriminate.
    reflexivity.
  - intros o H. unfold VerifySetup.validateNode.
    rewrite (matchVersion_no_v o H). reflexivity.
Qed.

Lemma validateNode_major_version_witness :
  (VerifySetup.matchVersion (lit "v20.11.1") = Some (lit "20")
   /\ VerifySetup.validateNode (lit "v20.11.1")
      = [VerifySetup.okMark] ++ lit " OK (v20.11.1)")
  /\ (VerifySetup.matchVersion (lit "node v16.20.2") = Some (lit "16")
      /\ VerifySetup.validateNode (lit "node v16.20.2")
         = [VerifySetup.failMark] ++ lit " FAIL (node v16.20.2, need v18+)")
  /\ VerifySetup.validateNode (lit "20.11.1")
     = [VerifySetup.failMark] ++ lit " FAIL (cannot parse version)".
Proof.
  split; [|split].
  - apply (proj1 validateNode_major_version [] (lit "20") (lit ".11.1"));
      [reflexivity|discriminate|reflexivity|].
    intros c t [= <- _]. reflexivity.
  - apply (proj1 validateNode_major_version (lit "node ") (lit "16") (lit ".20.2"));
      [reflexivity|discriminate|reflexivity|].
    intros c t [= <- _]. reflexivity.
  - apply (proj2 validateNode_major_version (lit "20.11.1")). reflexivity.
Defined.

Lemma split_not_nil (c : codeUnit) (s : jsstring) : VerifySetup.split c s <> [].
Proof.
  destruct s as [|x t]; cbn; [discriminate|].
  destruct (x =? c); [discriminate|].
  destruct (VerifySetup.split c t); discriminate.
Qed.

Lemma join_split (c : codeUnit) (sep s : jsstring) :
  join sep (VerifySetup.split c s) = replaceAll c sep s.
Proof.
  induction s as [|x t IH]; [reflexivity|].
  cbn [VerifySetup.split]. unfold replaceAll in *. cbn [flat_map].
  pose proof (split_not_nil c t) as NE.
  destruct (x =? c).
  - destruct (VerifySetup.split c t) as [|h r]; [congruence|].
    cbn [join app]. rewrite <- IH. reflexivity.
  - destruct (VerifySetup.split c t) as [|h r]; [congruence|].
    rewrite <- IH. destruct r; reflexivity.
Qed.

(** X15. Splitting a text at a character and joining the pieces with a
    separator replaces each occurrence of the character by the separator;
    joining with the character itself gives the text back, and there is one
    piece more than there are occurrences.  The help text of a failed check
    is therefore printed with two spaces in front of each of its lines, and
    nothing is printed for a check without help text. *)
Theorem failureHelp_indentation :
  (forall (c : codeUnit) (sep s : jsstring),
      join sep (VerifySetup.split c s) = replaceAll c sep s)
  /\ (forall (c : codeUnit) (s : jsstring), join [c] (VerifySetup.split c s) = s)
  /\ (forall (c : codeUnit) (s : jsstring),
        List.length (VerifySetup.split c s)
        = S (List.length (filter (fun x => x =? c) s)))
  /\ (forall check : VerifySetup.CheckConfig,
        VerifySetup.helpLines check
        = match VerifySetup.failureHelp check with
          | Some (x :: h) =>
              [lit "  " ++ replaceAll 10 [10; 32; 32] (x :: h)]
          | _ => []
          end).
Proof.
  split; [exact join_split|]. split; [|split].
  - intros c s. rewrite join_split. unfold replaceAll.
    induction s as [|x t IH]; [reflexivity|].
    cbn [flat_map]. rewrite IH.
    destruct (N.eqb_spec x c) as [->|]; reflexivity.
  - intros c s. induction s as [|x t IH]; [reflexivity|].
    cbn [VerifySetup.split filter]. pose proof (split_not_nil c t) as NE.
    destruct (x =? c).
    + cbn [List.length]. rewrite IH. reflexivity.
    + destruct (VerifySetup.split c t) as [|h r]; [congruence|].
      cbn [List.length] in *. exact IH.
  - intros check. unfold VerifySetup.helpLines.
    destruct (VerifySetup.failureHelp check) as [[|x h]|]; try reflexivity.
    cbn [truthy]. rewrite join_split. reflexivity.
Qed.

(** X16. The setup verification does not probe the program the server
    runs: every command line the builder produces starts with the word
    [gemini], and none of the four probes does (two of them run
    [gemini-cli]). *)
Theorem verification_probes_another_binary (p : GeminiExecuteParams) (command : jsstring) :
  buildCommand p = Normal command ->
  startsWith (lit "gemini ") command = true
  /\ Forall (fun c => startsWith (lit "gemini ") (VerifySetup.command c) = false)
       VerifySetup.checks.
Proof.
  intros E. split.
  - destruct (prompt p) as [s|] eqn:Hs.
    + destruct (buildCommand_prompt_segment p s Hs) as (rest & E').
      rewrite E in E'. injection E' as ->. reflexivity.
    + unfold buildCommand, buildParts in E. rewrite Hs in E. discriminate E.
  - repeat constructor.
Qed.

Lemma verification_probes_another_binary_witness :
  buildCommand sampleRequest
  = Normal (lit "gemini -p " ++ [dquote] ++ lit "list \$HOME" ++ [dquote]
            ++ lit " -m gemini-3-pro-preview --approval-mode yolo"
            ++ lit " --output-format json -s --include-directories src,docs")
  /\ startsWith (lit "gemini ")
       (lit "gemini -p " ++ [dquote] ++ lit "list \$HOME" ++ [dquote]
        ++ lit " -m gemini-3-pro-preview --approval-mode yolo"
        ++ lit " --output-format json -s --include-directories src,docs") = true
  /\ Forall (fun c => startsWith (lit "gemini ") (VerifySetup.command c) = false)
       VerifySetup.checks.
Proof.
  split; [reflexivity|].
  exact (verification_probes_another_binary sampleRequest _ eq_refl).
Defined.

(** The verification in an environment where every probe succeeds, and in
    one where no command can be run. *)
Example verification_healthy :
  snd (VerifySetup.main healthyExec) = 0.
Proof. reflexivity. Qed.

Example verification_nothing_installed :
  snd (VerifySetup.main (fun _ => Throw (Error (lit "spawn failed")))) = 1
  /\ List.length (VerifySetup.logged
                    (VerifySetup.runChecks (fun _ => Throw (Error (lit "spawn failed")))))
     = 9%nat.
Proof. split; reflexivity. Qed.
